(** * Expense_Tracker.py: ledger, budget set and aggregation engine

    A shallow embedding of the [ExpenseTracker] and [UserManager] classes
    of [Expense_Tracker.py] together with the small part of Python's
    [datetime], [dict] and [float] semantics they rely on, and the
    properties the specification states about them.

    Modelling conventions.
    - Amounts (Python [float], the specification's "decimal") are exact
      rationals [Q] in the model of the whole class.  What depends on how
      binary64 arithmetic rounds (the fields of a budget status, the
      totals by category) is stated on a second model of the queries
      involved, [B64], where amounts are binary64 numbers.
    - Python strings are [string] (byte strings); [None] for an optional
      argument is [option]; truthiness tests ([if date],
      [if start_date and end_date]) are written out with [truthy].
    - The file at [self.data_file] is a field of the tracker: absent,
      unreadable, or a JSON document.
    - [datetime.now()] and [secrets.token_hex] are inputs of the operations
      that read them ([now], [token], [salt]); the SHA-256 digest is a
      parameter of the operations on passwords.
    - A Python [dict] is an insertion-ordered association list ([Dict]).
    - Mutating methods pass the tracker explicitly and return it next to the
      [(bool, message)] pair of the source. *)

From Stdlib Require Import ZArith QArith Qround Bool List String Ascii Lia Lqa.
From Stdlib Require Import Permutation.
From Stdlib Require Import PrimFloat FloatOps SpecFloat.
Import ListNotations.

Local Open Scope Z_scope.

(* ================================================================== *)
(** ** Python dictionaries: insertion-ordered maps with string keys *)
(* ================================================================== *)

Module Dict.
Section Ops.
Context {V : Type}.

Definition t : Type := list (string * V).

Definition empty : t := [].

(** [d.get(k)] / [d[k]] *)
Fixpoint get (k : string) (d : t) : option V :=
  match d with
  | [] => None
  | (k', v) :: d' => if String.eqb k' k then Some v else get k d'
  end.

(** [k in d] *)
Definition mem (k : string) (d : t) : bool :=
  match get k d with Some _ => true | None => false end.

(** [d[k] = v]: an existing key keeps its position, a new key goes last. *)
Fixpoint set (k : string) (v : V) (d : t) : t :=
  match d with
  | [] => [(k, v)]
  | (k', v') :: d' =>
      if String.eqb k' k then (k', v) :: d' else (k', v') :: set k v d'
  end.

(** [del d[k]] (on a present key) *)
Fixpoint del (k : string) (d : t) : t :=
  match d with
  | [] => []
  | (k', v') :: d' =>
      if String.eqb k' k then d' else (k', v') :: del k d'
  end.

Definition keys (d : t) : list string := map fst d.
Definition values (d : t) : list V := map snd d.
Definition items (d : t) : list (string * V) := d.

(** [{k: v for (k, v) in kvs}]: later bindings of a key overwrite. *)
Definition of_items (kvs : list (string * V)) : t :=
  fold_left (fun d kv => set (fst kv) (snd kv) d) kvs empty.
End Ops.
Arguments t : clear implicits.
End Dict.

(* ================================================================== *)
(** ** The part of [datetime] the tracker uses *)
(* ================================================================== *)

(** A naive [datetime] (microseconds are never observed). *)
Record datetime : Type := mk_datetime {
  year : Z; month : Z; day : Z;
  hour : Z; minute : Z; second : Z
}.

Definition MINYEAR : Z := 1.
Definition MAXYEAR : Z := 9999.

Definition is_leap (y : Z) : bool :=
  (y mod 4 =? 0) && (negb (y mod 100 =? 0) || (y mod 400 =? 0)).

(** number of days before January 1st of year [y] *)
Definition days_before_year (y : Z) : Z :=
  let y' := y - 1 in y' * 365 + y' / 4 - y' / 100 + y' / 400.

Definition DAYS_IN_MONTH : list Z :=
  [-1; 31; 28; 31; 30; 31; 30; 31; 31; 30; 31; 30; 31].

Definition DAYS_BEFORE_MONTH : list Z :=
  [-1; 0; 31; 59; 90; 120; 151; 181; 212; 243; 273; 304; 334].

Definition table (l : list Z) (i : Z) : Z := nth (Z.to_nat i) l 0.

Definition days_in_month (y m : Z) : Z :=
  if (m =? 2) && is_leap y then 29 else table DAYS_IN_MONTH m.

Definition days_before_month (y m : Z) : Z :=
  table DAYS_BEFORE_MONTH m + (if (2 <? m) && is_leap y then 1 else 0).

(** year, month, day -> ordinal, 0001-01-01 being day 1 *)
Definition ymd2ord (y m d : Z) : Z :=
  days_before_year y + days_before_month y m + d.

Definition DI400Y : Z := 146097.
Definition DI100Y : Z := 36524.
Definition DI4Y : Z := 1461.

(** the month and day of the [n]-th day (from 0) of a year: an estimate of
    the month that is exact or one too large, then a correction *)
Definition month_and_day (leapyear : bool) (n : Z) : Z * Z :=
  let m := Z.shiftr (n + 50) 5 in
  let preceding :=
    table DAYS_BEFORE_MONTH m + (if (2 <? m) && leapyear then 1 else 0) in
  if n <? preceding then
    let m := m - 1 in
    let preceding :=
      preceding
      - (table DAYS_IN_MONTH m + (if (m =? 2) && leapyear then 1 else 0)) in
    (m, n - preceding + 1)
  else (m, n - preceding + 1).

(** ordinal -> (year, month, day), following the algorithm of the
    reference implementation: 400-year, 100-year, 4-year cycles, then
    single years *)
Definition ord2ymd (n : Z) : Z * Z * Z :=
  let n := n - 1 in
  let n400 := n / DI400Y in let n := n mod DI400Y in
  let y := n400 * 400 + 1 in
  let n100 := n / DI100Y in let n := n mod DI100Y in
  let n4 := n / DI4Y in let n := n mod DI4Y in
  let n1 := n / 365 in let n := n mod 365 in
  let y := y + n100 * 100 + n4 * 4 + n1 in
  if (n1 =? 4) || (n100 =? 4) then (y - 1, 12, 31)
  else
    let leapyear := (n1 =? 3) && (negb (n4 =? 24) || (n100 =? 3)) in
    let '(m, d) := month_and_day leapyear n in
    (y, m, d).

Definition toordinal (dt : datetime) : Z :=
  ymd2ord (year dt) (month dt) (day dt).

(** [dt.weekday()]: Monday is 0, Sunday is 6 *)
Definition weekday (dt : datetime) : Z := (toordinal dt + 6) mod 7.

(** [dt - timedelta(days=k)]: the time of day is kept *)
Definition sub_days (dt : datetime) (k : Z) : datetime :=
  let '(y, m, d) := ord2ymd (toordinal dt - k) in
  mk_datetime y m d (hour dt) (minute dt) (second dt).

(** [dt.replace(day=d)] *)
Definition replace_day (dt : datetime) (d : Z) : datetime :=
  mk_datetime (year dt) (month dt) d (hour dt) (minute dt) (second dt).

(** the fields a [datetime] constructor accepts *)
Definition valid_date (y m d : Z) : bool :=
  (MINYEAR <=? y) && (y <=? MAXYEAR) && (1 <=? m) && (m <=? 12)
  && (1 <=? d) && (d <=? days_in_month y m).

Definition valid_datetime (dt : datetime) : bool :=
  valid_date (year dt) (month dt) (day dt)
  && (0 <=? hour dt) && (hour dt <=? 23)
  && (0 <=? minute dt) && (minute dt <=? 59)
  && (0 <=? second dt) && (second dt <=? 59).

(** comparison of two naive datetimes: lexicographic on the fields *)
Definition datetime_key (dt : datetime) : list Z :=
  [year dt; month dt; day dt; hour dt; minute dt; second dt].

Fixpoint lex_leb (a b : list Z) : bool :=
  match a, b with
  | [], _ => true
  | _ :: _, [] => false
  | x :: a', y :: b' => (x <? y) || ((x =? y) && lex_leb a' b')
  end.

Definition datetime_leb (a b : datetime) : bool :=
  lex_leb (datetime_key a) (datetime_key b).

(** *** Formatting and parsing with ["%Y-%m-%d"] *)

Definition digit_char (k : Z) : ascii := ascii_of_nat (48 + Z.to_nat k).

Definition digit_value (c : ascii) : option Z :=
  let n := Z.of_nat (nat_of_ascii c) in
  if (48 <=? n) && (n <=? 57) then Some (n - 48) else None.

Definition pad2 (n : Z) : string :=
  String (digit_char (n / 10)) (String (digit_char (n mod 10)) EmptyString).

Definition pad4 (n : Z) : string :=
  String (digit_char (n / 1000))
    (String (digit_char (n / 100 mod 10)) (pad2 (n mod 100))).

(** [dt.strftime("%Y-%m-%d")]: the year on four digits, the month and
    the day on two *)
Definition strftime_Ymd (dt : datetime) : string :=
  (pad4 (year dt) ++ "-" ++ pad2 (month dt) ++ "-" ++ pad2 (day dt))%string.

(** [dt.strftime("%Y-%m-%d %H:%M:%S")] *)
Definition strftime_YmdHMS (dt : datetime) : string :=
  (strftime_Ymd dt ++ " " ++ pad2 (hour dt) ++ ":" ++ pad2 (minute dt)
   ++ ":" ++ pad2 (second dt))%string.

(** the month directive [1[0-2]|0[1-9]|[1-9]], then the literal ["-"] *)
Definition parse_month (s : string) : option (Z * string) :=
  match s with
  | String c1 (String "-" rest) =>
      match digit_value c1 with
      | Some a => if 1 <=? a then Some (a, rest) else None
      | None => None
      end
  | String c1 (String c2 (String "-" rest)) =>
      match digit_value c1, digit_value c2 with
      | Some 1, Some b => if b <=? 2 then Some (10 + b, rest) else None
      | Some 0, Some b => if 1 <=? b then Some (b, rest) else None
      | _, _ => None
      end
  | _ => None
  end.

(** the day directive [3[01]|[12]\d|0[1-9]|[1-9]| [1-9]], then the end of
    the input (anything left over is "unconverted data") *)
Definition parse_day (s : string) : option Z :=
  match s with
  | String c1 EmptyString =>
      match digit_value c1 with
      | Some a => if 1 <=? a then Some a else None
      | None => None
      end
  | String c1 (String c2 EmptyString) =>
      match digit_value c1, digit_value c2 with
      | Some 3, Some b => if b <=? 1 then Some (30 + b) else None
      | Some 1, Some b => Some (10 + b)
      | Some 2, Some b => Some (20 + b)
      | Some 0, Some b => if 1 <=? b then Some b else None
      | None, Some b =>
          if (c1 =? " ")%char && (1 <=? b) then Some b else None
      | _, _ => None
      end
  | _ => None
  end.

(** [datetime.strptime(s, "%Y-%m-%d")]; [None] stands for [ValueError].
    The year directive is four digits; the input must match to its end and
    the fields must form a date.  Strings are byte strings here, and a
    digit is an ASCII digit. *)
Definition strptime_Ymd (s : string) : option datetime :=
  match s with
  | String a (String b (String c (String d (String "-" rest)))) =>
      match digit_value a, digit_value b, digit_value c, digit_value d with
      | Some a, Some b, Some c, Some d =>
          match parse_month rest with
          | Some (m, rest') =>
              match parse_day rest' with
              | Some dd =>
                  let y := 1000 * a + 100 * b + 10 * c + d in
                  if valid_date y m dd
                  then Some (mk_datetime y m dd 0 0 0) else None
              | None => None
              end
          | None => None
          end
      | _, _, _, _ => None
      end
  | _ => None
  end.

(* ================================================================== *)
(** ** Data model *)
(* ================================================================== *)

Local Open Scope Q_scope.

Inductive ExpenseCategory : Type :=
| FOOD | TRANSPORTATION | ENTERTAINMENT | SHOPPING
| BILLS | EDUCATION | HEALTHCARE | OTHER.

(** iteration order of [for category in ExpenseCategory] *)
Definition all_categories : list ExpenseCategory :=
  [FOOD; TRANSPORTATION; ENTERTAINMENT; SHOPPING;
   BILLS; EDUCATION; HEALTHCARE; OTHER].

(** [category.value] *)
Definition value (c : ExpenseCategory) : string :=
  match c with
  | FOOD => "Food" | TRANSPORTATION => "Transportation"
  | ENTERTAINMENT => "Entertainment" | SHOPPING => "Shopping"
  | BILLS => "Bills" | EDUCATION => "Education"
  | HEALTHCARE => "Healthcare" | OTHER => "Other"
  end.

Definition category_eqb (a b : ExpenseCategory) : bool :=
  match a, b with
  | FOOD, FOOD | TRANSPORTATION, TRANSPORTATION
  | ENTERTAINMENT, ENTERTAINMENT | SHOPPING, SHOPPING
  | BILLS, BILLS | EDUCATION, EDUCATION
  | HEALTHCARE, HEALTHCARE | OTHER, OTHER => true
  | _, _ => false
  end.

(** [ExpenseCategory(s)]: lookup by value, [None] stands for [ValueError] *)
Definition category_of_value (s : string) : option ExpenseCategory :=
  find (fun c => String.eqb (value c) s) all_categories.

(** truthiness of an optional string argument: [None] and [""] are false *)
Definition truthy (s : option string) : bool :=
  match s with
  | Some s => negb (String.eqb s "")
  | None => false
  end.

Set Warnings "-register-all".

(** the JSON documents [json.dump] writes and [json.load] returns *)
Inductive json : Type :=
| JNull
| JBool (b : bool)
| JNumber (q : Q)
| JString (s : string)
| JArray (l : list json)
| JObject (o : list (string * json)).

(** exceptions that cross a method boundary *)
Inductive exn : Type :=
| KeyError (k : string)
| ValueError
| TypeError
| AttributeError.

Inductive result (A : Type) : Type :=
| Ok (a : A)
| Raise (e : exn).
Arguments Ok {A} a.
Arguments Raise {A} e.

Definition bind {A B} (r : result A) (k : A -> result B) : result B :=
  match r with Ok a => k a | Raise e => Raise e end.

Notation "x <- r ;; k" := (bind r (fun x => k))
  (at level 61, r at next level, right associativity).

(** [for x in l: ... f(x) ...], stopping at the first exception *)
Fixpoint mapM {A B} (f : A -> result B) (l : list A) : result (list B) :=
  match l with
  | [] => Ok []
  | a :: l' => b <- f a ;; bs <- mapM f l' ;; Ok (b :: bs)
  end.

(** [data[k]] on a decoded JSON value *)
Definition subscript (data : json) (k : string) : result json :=
  match data with
  | JObject o =>
      match Dict.get k o with Some v => Ok v | None => Raise (KeyError k) end
  | _ => Raise TypeError
  end.

(** The records below are typed; a JSON field holding a value of another
    JSON type (which Python would store unchecked) is reported as
    [TypeError]. *)
Definition as_string (j : json) : result string :=
  match j with JString s => Ok s | _ => Raise TypeError end.

Definition as_number (j : json) : result Q :=
  match j with JNumber q => Ok q | _ => Raise TypeError end.

(** [ExpenseCategory(j)] *)
Definition as_category (j : json) : result ExpenseCategory :=
  match j with
  | JString s =>
      match category_of_value s with
      | Some c => Ok c
      | None => Raise ValueError
      end
  | _ => Raise ValueError
  end.

Module Expense.
Record t : Type := mk {
  amount : Q;
  category : ExpenseCategory;
  description : string;
  date : string;
  id : string
}.

(** [Expense(amount, category, description, date)]; [now] is the clock
    and [token] the value of [secrets.token_hex(8)] *)
Definition init (amount : Q) (category : ExpenseCategory)
    (description : string) (date : option string)
    (now : datetime) (token : string) : t :=
  let date :=
    match date with
    | Some d => if truthy (Some d) then d else strftime_Ymd now
    | None => strftime_Ymd now
    end in
  mk amount category description date (date ++ "_" ++ token)%string.

Definition to_dict (e : t) : json :=
  JObject [("id", JString (id e));
           ("amount", JNumber (amount e));
           ("category", JString (value (category e)));
           ("description", JString (description e));
           ("date", JString (date e))]%string.

(** [Expense.from_dict(data)]: builds a fresh expense, then overwrites
    its id with the stored one *)
Definition from_dict (data : json) (now : datetime) (token : string)
  : result t :=
  a <- (j <- subscript data "amount" ;; as_number j) ;;
  c <- (j <- subscript data "category" ;; as_category j) ;;
  desc <- (j <- subscript data "description" ;; as_string j) ;;
  d <- (j <- subscript data "date" ;; as_string j) ;;
  let expense := init a c desc (Some d) now token in
  i <- (j <- subscript data "id" ;; as_string j) ;;
  Ok (mk (amount expense) (category expense) (description expense)
         (date expense) i).
End Expense.

Module Budget.
(** The [id] attribute is computed once by the constructor from
    [category] and [period], which are never reassigned: it is the
    function [id] here. *)
Record t : Type := mk {
  category : ExpenseCategory;
  amount : Q;
  period : string
}.

Definition make_id (c : ExpenseCategory) (p : string) : string :=
  ("budget_" ++ value c ++ "_" ++ p)%string.

Definition id (b : t) : string := make_id (category b) (period b).

Definition to_dict (b : t) : json :=
  JObject [("id", JString (id b));
           ("category", JString (value (category b)));
           ("amount", JNumber (amount b));
           ("period", JString (period b))]%string.

Definition from_dict (data : json) : result t :=
  c <- (j <- subscript data "category" ;; as_category j) ;;
  a <- (j <- subscript data "amount" ;; as_number j) ;;
  p <- (j <- subscript data "period" ;; as_string j) ;;
  Ok (mk c a p).
End Budget.

(** what is found at the path [self.data_file] *)
Inductive file : Type :=
| NoFile                 (* [os.path.exists] is false *)
| Corrupt                (* [json.load] raises [JSONDecodeError] *)
| Json (data : json).

Record ExpenseTracker : Type := mk_tracker {
  username : string;
  expenses : list Expense.t;
  budgets : Dict.t Budget.t;
  data_file : file   (* content of user_data/<username>/expenses.json *)
}.

Definition with_expenses (t : ExpenseTracker) (es : list Expense.t) :=
  mk_tracker (username t) es (budgets t) (data_file t).

Definition with_budgets (t : ExpenseTracker) (bs : Dict.t Budget.t) :=
  mk_tracker (username t) (expenses t) bs (data_file t).

(** the second component of the [(bool, str)] pairs the methods return *)
Inductive message : Type :=
| AmountMustBePositive            (* "Amount must be positive" *)
| ExpenseAdded (id : string)      (* "Expense added successfully (ID: <id>)" *)
| ExpenseDeleted                  (* "Expense deleted successfully" *)
| ExpenseNotFound                 (* "Expense not found" *)
| ExpenseUpdated                  (* "Expense updated successfully" *)
| BudgetNegative                  (* "Budget amount cannot be negative" *)
| BudgetSet (c : ExpenseCategory) (amount : Q) (period : string).
                                  (* "Budget set for <c>: $<amount> (<period>)" *)

Definition outcome : Type := (bool * message) * ExpenseTracker.

(** [sum(...)] over amounts: left to right from 0 *)
Definition py_sum (l : list Q) : Q := fold_left Qplus l 0.

Definition Qltb (a b : Q) : bool := negb (Qle_bool b a).

(** [round(x)] on an exact number: nearest integer, ties to the even one *)
Definition round_half_even (x : Q) : Z :=
  let f := Qfloor x in
  match Qcompare (x - inject_Z f) (1 # 2) with
  | Lt => f
  | Gt => (f + 1)%Z
  | Eq => if Z.even f then f else (f + 1)%Z
  end.

(** [round(x, 2)] *)
Definition py_round2 (x : Q) : Q :=
  inject_Z (round_half_even (x * 100)) / 100.

(* ================================================================== *)
(** ** [class ExpenseTracker] *)
(* ================================================================== *)

(** *** Persistence *)

Definition save_data (t : ExpenseTracker) (now : datetime) : ExpenseTracker :=
  let data :=
    JObject [("username", JString (username t));
             ("last_updated", JString (strftime_YmdHMS now));
             ("expenses", JArray (map Expense.to_dict (expenses t)));
             ("budgets",
              JArray (map Budget.to_dict (Dict.values (budgets t))))]%string
  in
  mk_tracker (username t) (expenses t) (budgets t) (Json data).

(** [data.get(k, [])], to be iterated over: the elements of an array;
    nothing for an empty string or object; otherwise the iteration, or the
    subscript on its first element, raises [TypeError] *)
Definition get_list (data : json) (k : string) : result (list json) :=
  match data with
  | JObject o =>
      match Dict.get k o with
      | Some (JArray l) => Ok l
      | Some (JString EmptyString) => Ok []
      | Some (JObject []) => Ok []
      | Some _ => Raise TypeError
      | None => Ok []
      end
  | _ => Raise AttributeError
  end.

(** the body of the [try] block of [load_data] *)
Definition load_body (data : json) (now : datetime) (token : string)
  : result (list Expense.t * Dict.t Budget.t) :=
  exp_datas <- get_list data "expenses" ;;
  es <- mapM (fun exp_data => Expense.from_dict exp_data now token)
          exp_datas ;;
  budget_datas <- get_list data "budgets" ;;
  kvs <- mapM (fun budget_data =>
                 k <- (j <- subscript budget_data "id" ;; as_string j) ;;
                 b <- Budget.from_dict budget_data ;;
                 Ok (k, b))
           budget_datas ;;
  Ok (es, Dict.of_items kvs).

Definition load_data (t : ExpenseTracker) (now : datetime) (token : string)
  : result ExpenseTracker :=
  match data_file t with
  | NoFile => Ok t
  | Corrupt => Ok (mk_tracker (username t) [] Dict.empty (data_file t))
  | Json data =>
      match load_body data now token with
      | Ok (es, bs) => Ok (mk_tracker (username t) es bs (data_file t))
      | Raise (KeyError _) =>
          Ok (mk_tracker (username t) [] Dict.empty (data_file t))
      | Raise e => Raise e
      end
  end.

(** [ExpenseTracker(username)], [f] being what the user's data file holds *)
Definition init (username : string) (f : file) (now : datetime)
    (token : string) : result ExpenseTracker :=
  load_data (mk_tracker username [] Dict.empty f) now token.

(** *** Expenses

    [add_expense] and [set_budget] wrap their body in
    [try ... except Exception]; with typed arguments nothing in the body
    raises, and the handler has no counterpart here. *)

Definition add_expense (t : ExpenseTracker) (amount : Q)
    (category : ExpenseCategory) (description : string)
    (date : option string) (now : datetime) (token : string) : outcome :=
  if Qle_bool amount 0 then ((false, AmountMustBePositive), t)
  else
    let expense := Expense.init amount category description date now token in
    let t := with_expenses t (expenses t ++ [expense]) in
    ((true, ExpenseAdded (Expense.id expense)), save_data t now).

Definition delete_expense (t : ExpenseTracker) (expense_id : string)
    (now : datetime) : outcome :=
  let initial_length := List.length (expenses t) in
  let t :=
    with_expenses t
      (filter (fun exp => negb (String.eqb (Expense.id exp) expense_id))
         (expenses t)) in
  if (List.length (expenses t) <? initial_length)%nat
  then ((true, ExpenseDeleted), save_data t now)
  else ((false, ExpenseNotFound), t).

(** the assignments of [update_expense] to the expense it found *)
Definition apply_overrides (expense : Expense.t) (amount : option Q)
    (category : option ExpenseCategory) (description date : option string)
  : Expense.t :=
  Expense.mk
    (match amount with Some a => a | None => Expense.amount expense end)
    (match category with Some c => c | None => Expense.category expense end)
    (match description with
     | Some d => d | None => Expense.description expense end)
    (match date with Some d => d | None => Expense.date expense end)
    (Expense.id expense).

(** the [for] loop of [update_expense]: [None] when it ends without a
    match, otherwise the early [return] of the first match: a failure
    message, or the list with that expense updated in place *)
Fixpoint update_loop (es : list Expense.t) (expense_id : string)
    (amount : option Q) (category : option ExpenseCategory)
    (description date : option string)
  : option (message + list Expense.t) :=
  match es with
  | [] => None
  | expense :: es' =>
      if String.eqb (Expense.id expense) expense_id then
        match amount with
        | Some a =>
            if Qle_bool a 0 then Some (inl AmountMustBePositive)
            else Some (inr (apply_overrides expense amount category
                              description date :: es'))
        | None =>
            Some (inr (apply_overrides expense amount category
                         description date :: es'))
        end
      else
        match update_loop es' expense_id amount category description date with
        | Some (inr l) => Some (inr (expense :: l))
        | r => r
        end
  end.

Definition update_expense (t : ExpenseTracker) (expense_id : string)
    (amount : option Q) (category : option ExpenseCategory)
    (description date : option string) (now : datetime) : outcome :=
  match update_loop (expenses t) expense_id amount category description date
  with
  | Some (inr es) => ((true, ExpenseUpdated), save_data (with_expenses t es) now)
  | Some (inl msg) => ((false, msg), t)
  | None => ((false, ExpenseNotFound), t)
  end.

Definition get_expense (t : ExpenseTracker) (expense_id : string)
  : option Expense.t :=
  find (fun expense => String.eqb (Expense.id expense) expense_id)
    (expenses t).

Definition get_expenses_by_category (t : ExpenseTracker)
    (category : ExpenseCategory) : list Expense.t :=
  filter (fun exp => category_eqb (Expense.category exp) category)
    (expenses t).

(** [start <= d <= end] *)
Definition between (start d end_ : datetime) : bool :=
  datetime_leb start d && datetime_leb d end_.

(** the expenses of [es] dated within [start, end_]; parsing the date of
    every expense, [None] when one of them raises [ValueError] *)
Fixpoint filter_by_date (start end_ : datetime) (es : list Expense.t)
  : option (list Expense.t) :=
  match es with
  | [] => Some []
  | exp :: es' =>
      match strptime_Ymd (Expense.date exp) with
      | None => None
      | Some exp_date =>
          match filter_by_date start end_ es' with
          | None => None
          | Some r => Some (if between start exp_date end_ then exp :: r else r)
          end
      end
  end.

Definition str (s : option string) : string :=
  match s with Some s => s | None => EmptyString end.

Definition get_expenses_by_date_range (t : ExpenseTracker)
    (start_date end_date : string) : list Expense.t :=
  match strptime_Ymd start_date, strptime_Ymd end_date with
  | Some start, Some end_ =>
      match filter_by_date start end_ (expenses t) with
      | Some filtered_expenses => filtered_expenses
      | None => []
      end
  | _, _ => []
  end.

Definition get_total_spent (t : ExpenseTracker)
    (category : option ExpenseCategory)
    (start_date end_date : option string) : Q :=
  let expenses := expenses t in
  let expenses :=
    match category with
    | Some category =>
        filter (fun exp => category_eqb (Expense.category exp) category)
          expenses
    | None => expenses
    end in
  let expenses :=
    if truthy start_date && truthy end_date then
      match strptime_Ymd (str start_date), strptime_Ymd (str end_date) with
      | Some start, Some end_ =>
          match filter_by_date start end_ expenses with
          | Some filtered => filtered
          | None => expenses   (* except ValueError: pass *)
          end
      | _, _ => expenses       (* except ValueError: pass *)
      end
    else expenses in
  py_sum (map Expense.amount expenses).

(** [category_totals[k] += a] *)
Definition add_to (k : string) (a : Q) (d : Dict.t Q) : Dict.t Q :=
  match Dict.get k d with
  | Some v => Dict.set k (v + a) d
  | None => d   (* KeyError; every category is a key *)
  end.

(** the body of the accumulation loop of [get_total_spent_by_category] *)
Definition add_expense_to (totals : Dict.t Q) (expense : Expense.t)
  : Dict.t Q :=
  add_to (value (Expense.category expense)) (Expense.amount expense) totals.

Definition get_total_spent_by_category (t : ExpenseTracker)
    (start_date end_date : option string) : Dict.t Q :=
  let category_totals :=
    Dict.of_items (map (fun category => (value category, 0)) all_categories)
  in
  let expenses :=
    if truthy start_date && truthy end_date
    then get_expenses_by_date_range t (str start_date) (str end_date)
    else expenses t in
  fold_left add_expense_to expenses category_totals.

(** *** Budgets *)

Definition set_budget (t : ExpenseTracker) (category : ExpenseCategory)
    (amount : Q) (period : string) (now : datetime) : outcome :=
  if Qltb amount 0 then ((false, BudgetNegative), t)
  else
    let budget := Budget.mk category amount period in
    let t := with_budgets t (Dict.set (Budget.id budget) budget (budgets t)) in
    ((true, BudgetSet category amount period), save_data t now).

(** the dictionary [get_budget_status] returns when a budget exists;
    [{'has_budget': False}] is [None] *)
Record BudgetStatus : Type := mk_status {
  budget_amount : Q;
  spent : Q;
  remaining : Q;
  percentage_used : Q;
  is_over_budget : bool;
  status_period : string
}.

Definition has_budget (s : option BudgetStatus) : bool :=
  match s with Some _ => true | None => false end.

Definition get_total_spent_by_period (t : ExpenseTracker)
    (category : ExpenseCategory) (period : string) (now : datetime) : Q :=
  let '(start_date, end_date) :=
    if String.eqb period "daily" then
      let start_date := strftime_Ymd now in
      (start_date, start_date)
    else if String.eqb period "weekly" then
      (strftime_Ymd (sub_days now (weekday now)), strftime_Ymd now)
    else (* monthly *)
      (strftime_Ymd (replace_day now 1), strftime_Ymd now) in
  get_total_spent t (Some category) (Some start_date) (Some end_date).

Definition get_budget_status (t : ExpenseTracker)
    (category : ExpenseCategory) (period : string) (now : datetime)
  : option BudgetStatus :=
  let budget_id := Budget.make_id category period in
  match Dict.get budget_id (budgets t) with
  | None => None
  | Some budget =>
      let spent := get_total_spent_by_period t category period now in
      let remaining := Budget.amount budget - spent in
      let percentage_used :=
        if Qltb 0 (Budget.amount budget)
        then (spent / Budget.amount budget) * 100 else 0 in
      Some (mk_status (Budget.amount budget) spent remaining
              (py_round2 percentage_used)
              (Qltb (Budget.amount budget) spent) period)
  end.

(** *** Spending summary *)

Record CategorySummary : Type := mk_category_summary {
  cs_spent : Q;
  cs_budget_status : option BudgetStatus;
  cs_percentage_of_total : Q
}.

Record Summary : Type := mk_summary {
  total_spent : Q;
  date_range : string * string;
  categories : Dict.t CategorySummary
}.

(** [next((b for b in matching_budgets if b.period == 'monthly'),
    matching_budgets[0])], [first] being [matching_budgets[0]] *)
Definition preferred_budget (first : Budget.t) (matching : list Budget.t)
  : Budget.t :=
  match find (fun b => String.eqb (Budget.period b) "monthly") matching with
  | Some b => b
  | None => first
  end.

(** one iteration of the loop over the categories: its budget status *)
Definition summary_budget_status (t : ExpenseTracker)
    (category : ExpenseCategory) (now : datetime) : option BudgetStatus :=
  let matching_budgets :=
    filter (fun b => category_eqb (Budget.category b) category)
      (Dict.values (budgets t)) in
  match matching_budgets with
  | [] => None
  | first :: _ =>
      let preferred := preferred_budget first matching_budgets in
      get_budget_status t category (Budget.period preferred) now
  end.

Definition get_spending_summary (t : ExpenseTracker)
    (start_date end_date : option string) (now : datetime) : Summary :=
  let start_date :=
    if truthy start_date then str start_date
    else strftime_Ymd (sub_days now 30) in
  let end_date :=
    if truthy end_date then str end_date else strftime_Ymd now in
  let category_totals :=
    get_total_spent_by_category t (Some start_date) (Some end_date) in
  let total_spent := py_sum (Dict.values category_totals) in
  let categories :=
    fold_left
      (fun cats category =>
         let category_value := value category in
         let spent :=
           match Dict.get category_value category_totals with
           | Some s => s
           | None => 0   (* KeyError; every category is a key *)
           end in
         let budget_status := summary_budget_status t category now in
         Dict.set category_value
           (mk_category_summary spent budget_status
              (if Qltb 0 total_spent then spent / total_spent * 100 else 0))
           cats)
      all_categories Dict.empty in
  mk_summary total_spent (start_date, end_date) categories.

(** *** Listing

    [get_all_expenses] sorts a copy of the list object bound to
    [self.expenses].  To tell the copy from the original, list objects
    live in a store and are named by references. *)

Section Sorting.
Context {A K : Type} (leb : K -> K -> bool) (key : A -> K).

Fixpoint insert_sorted (x : A) (l : list A) : list A :=
  match l with
  | [] => [x]
  | y :: l' =>
      if leb (key x) (key y) then x :: l else y :: insert_sorted x l'
  end.

(** ascending and stable *)
Definition sort_ascending (l : list A) : list A :=
  fold_right insert_sorted [] l.

(** the value [l.sort(key=key, reverse=reverse)] leaves in [l]; elements
    with equal keys keep their order in both directions *)
Definition sorted_by (reverse : bool) (l : list A) : list A :=
  if reverse then rev (sort_ascending (rev l)) else sort_ascending l.
End Sorting.

Definition ref : Type := nat.
Definition store : Type := list (list Expense.t).

Definition deref (h : store) (r : ref) : option (list Expense.t) :=
  nth_error h r.

(** a new list object *)
Definition alloc (l : list Expense.t) (h : store) : ref * store :=
  (List.length h, h ++ [l]).

(** the object at [r] now holds [l] *)
Fixpoint assign (r : ref) (l : list Expense.t) (h : store) : store :=
  match h, r with
  | [], _ => []
  | _ :: h', O => l :: h'
  | x :: h', S r' => x :: assign r' l h'
  end.

(** [l.copy()] *)
Definition list_copy (r : ref) (h : store) : option (ref * store) :=
  match deref h r with
  | Some l => Some (alloc l h)
  | None => None
  end.

(** [l.sort(key=key, reverse=reverse)], in place *)
Definition list_sort {K : Type} (leb : K -> K -> bool)
    (key : Expense.t -> K) (reverse : bool) (r : ref) (h : store) : store :=
  match deref h r with
  | Some l => assign r (sorted_by leb key reverse l) h
  | None => h
  end.

(** [get_all_expenses], [self_expenses] being the reference held in
    [self.expenses]; the result is the reference it returns *)
Definition get_all_expenses (self_expenses : ref) (sort_by : string)
    (reverse : bool) (h : store) : option (ref * store) :=
  match list_copy self_expenses h with
  | None => None
  | Some (expenses, h) =>
      let h :=
        if String.eqb sort_by "date" then
          list_sort String.leb Expense.date reverse expenses h
        else if String.eqb sort_by "amount" then
          list_sort Qle_bool Expense.amount reverse expenses h
        else if String.eqb sort_by "category" then
          list_sort String.leb (fun x => value (Expense.category x))
            reverse expenses h
        else h in
      Some (expenses, h)
  end.

(* ================================================================== *)
(** ** The rest of [class ExpenseTracker] *)
(* ================================================================== *)

(** [s.startswith(p)] *)
Fixpoint startswith (s p : string) {struct p} : bool :=
  match p with
  | EmptyString => true
  | String a p' =>
      match s with
      | EmptyString => false
      | String b s' => Ascii.eqb a b && startswith s' p'
      end
  end.

(** the messages of [delete_budget] and [clear_all_data] *)
Inductive budget_message : Type :=
| AllBudgetsDeleted (c : ExpenseCategory)
                        (* "All budgets deleted for <c>" *)
| NoBudgetFound (c : ExpenseCategory)
                        (* "No budget found for <c>" *)
| BudgetDeleted (c : ExpenseCategory) (period : string)
                        (* "Budget deleted for <c> (<period>)" *)
| NoBudgetFoundFor (c : ExpenseCategory) (period : string)
                        (* "No budget found for <c> (<period>)" *)
| AllDataCleared.       (* "All data cleared successfully" *)

(** [delete_budget]: with a period (a non-empty string) the budget of that
    pair; without one, every budget whose id starts with the category's
    prefix *)
Definition delete_budget (t : ExpenseTracker) (category : ExpenseCategory)
    (period : option string) (now : datetime)
  : (bool * budget_message) * ExpenseTracker :=
  if truthy period then
    let budget_id := Budget.make_id category (str period) in
    if Dict.mem budget_id (budgets t) then
      let t := with_budgets t (Dict.del budget_id (budgets t)) in
      ((true, BudgetDeleted category (str period)), save_data t now)
    else ((false, NoBudgetFoundFor category (str period)), t)
  else
    let budget_ids :=
      filter (fun bid => startswith bid ("budget_" ++ value category ++ "_"))
        (Dict.keys (budgets t)) in
    match budget_ids with
    | [] => ((false, NoBudgetFound category), t)
    | _ :: _ =>
        let t :=
          with_budgets t
            (fold_left (fun d budget_id => Dict.del budget_id d)
               budget_ids (budgets t)) in
        ((true, AllBudgetsDeleted category), save_data t now)
    end.

(** an element of the list [get_all_budgets_with_status] returns *)
Record BudgetWithStatus : Type := mk_budget_with_status {
  bws_category : string;
  bws_period : string;
  bws_status : BudgetStatus
}.

Definition get_all_budgets_with_status (t : ExpenseTracker) (now : datetime)
  : list BudgetWithStatus :=
  fold_left
    (fun budgets_with_status budget =>
       match get_budget_status t (Budget.category budget)
               (Budget.period budget) now with
       | Some budget_status =>
           budgets_with_status
           ++ [mk_budget_with_status (value (Budget.category budget))
                 (Budget.period budget) budget_status]
       | None => budgets_with_status
       end)
    (Dict.values (budgets t)) [].

Definition clear_all_data (t : ExpenseTracker) (now : datetime)
  : (bool * budget_message) * ExpenseTracker :=
  ((true, AllDataCleared),
   save_data (mk_tracker (username t) [] Dict.empty (data_file t)) now).

(** *** Financial insights

    The alert, recommendation and tip strings are constructors carrying
    the values the strings are formatted from. *)

Inductive alert : Type :=
| OverBudget (period category : string) (spent budget_amount : Q).
    (* "Over <period> budget in <category>: $<spent> / $<budget_amount>" *)

Inductive recommendation : Type :=
| MealPlanning (percentage : Q)       (* "Consider meal planning ..." *)
| FreeEntertainment (percentage : Q)  (* "Look for free entertainment ..." *)
| SetUpBudgets.                       (* "Set up budgets for your main ..." *)

Inductive savings_tip : Type :=
| TrackEveryExpense | ReviewBudgetsMonthly | SetAsideSavings | Rule_50_30_20.

Record Insights : Type := mk_insights {
  total_monthly_spending : Q;
  top_category : string;
  budget_alerts : list alert;
  recommendations : list recommendation;
  savings_tips : list savings_tip
}.

(** the loop that finds the top spending category, on the state
    [(top_category, top_amount)] *)
Definition top_step (top : string * Q) (item : string * CategorySummary)
  : string * Q :=
  if Qltb (snd top) (cs_spent (snd item))
  then (fst item, cs_spent (snd item)) else top.

(** [categories_data[name]['spent']] *)
Definition spent_of (categories_data : Dict.t CategorySummary)
    (name : string) : Q :=
  match Dict.get name categories_data with
  | Some data => cs_spent data
  | None => 0   (* KeyError; every category is a key *)
  end.

Definition get_financial_insights (t : ExpenseTracker) (now : datetime)
  : Insights :=
  let monthly_summary := get_spending_summary t None None now in
  let categories_data := categories monthly_summary in
  let total_spent := total_spent monthly_summary in
  let '(top_category, _) :=
    fold_left top_step (Dict.items categories_data)
      ("No expenses"%string, 0) in
  let budget_alerts :=
    fold_left
      (fun alerts budget =>
         match get_budget_status t (Budget.category budget)
                 (Budget.period budget) now with
         | Some budget_status =>
             if is_over_budget budget_status
             then alerts
                  ++ [OverBudget (Budget.period budget)
                        (value (Budget.category budget))
                        (spent budget_status) (budget_amount budget_status)]
             else alerts
         | None => alerts
         end)
      (Dict.values (budgets t)) [] in
  let recommendations :=
    if Qltb 0 total_spent then
      let food_spent := spent_of categories_data "Food" in
      let entertainment_spent := spent_of categories_data "Entertainment" in
      (if Qltb (total_spent * (3 # 10)) food_spent
       then [MealPlanning (food_spent / total_spent * 100)] else [])
      ++ (if Qltb (total_spent * (2 # 10)) entertainment_spent
          then [FreeEntertainment (entertainment_spent / total_spent * 100)]
          else [])
      ++ (if (List.length (budgets t) =? 0)%nat then [SetUpBudgets] else [])
    else [] in
  mk_insights total_spent top_category budget_alerts recommendations
    [TrackEveryExpense; ReviewBudgetsMonthly; SetAsideSavings; Rule_50_30_20].

(** *** User statistics *)

(** [max(l, key=key)], [best] being the first element: the first of the
    elements with the greatest key *)
Fixpoint max_from {A K : Type} (ltb : K -> K -> bool) (key : A -> K)
    (best : A) (l : list A) : A :=
  match l with
  | [] => best
  | x :: l' => max_from ltb key (if ltb (key best) (key x) then x else best) l'
  end.

(** [max(l, key=key)]; [None] stands for the [ValueError] on an empty
    argument *)
Definition py_max {A K : Type} (ltb : K -> K -> bool) (key : A -> K)
    (l : list A) : option A :=
  match l with
  | [] => None
  | x :: l' => Some (max_from ltb key x l')
  end.

(** [min(l)] on strings: the first of the smallest elements *)
Definition py_min_str (l : list string) : option string :=
  py_max (fun a b => String.ltb b a) (fun s => s) l.

Definition py_max_str (l : list string) : option string :=
  py_max String.ltb (fun s => s) l.

(** [d[k] = d.get(k, 0) + n] *)
Definition bump_count (k : string) (d : Dict.t Z) : Dict.t Z :=
  Dict.set k (match Dict.get k d with Some n => n | None => 0%Z end + 1)%Z d.

Definition bump_amount (k : string) (a : Q) (d : Dict.t Q) : Dict.t Q :=
  Dict.set k (match Dict.get k d with Some v => v | None => 0 end + a) d.

Record Statistics : Type := mk_statistics {
  total_expenses : nat;
  total_amount_spent : Q;
  average_expense : Q;
  most_used_category : string;
  most_spent_category : string;
  active_budgets : nat;
  first_expense_date : string;
  last_expense_date : string
}.

(** the two dictionaries the loop of [get_user_statistics] fills *)
Definition category_counts (es : list Expense.t) : Dict.t Z :=
  fold_left (fun d expense => bump_count (value (Expense.category expense)) d)
    es Dict.empty.

Definition category_amounts (es : list Expense.t) : Dict.t Q :=
  fold_left
    (fun d expense =>
       bump_amount (value (Expense.category expense))
         (Expense.amount expense) d)
    es Dict.empty.

Definition get_user_statistics (t : ExpenseTracker) : Statistics :=
  let total_expenses := List.length (expenses t) in
  let total_spent := get_total_spent t None None None in
  let avg_expense :=
    if (0 <? total_expenses)%nat
    then total_spent / inject_Z (Z.of_nat total_expenses) else 0 in
  let most_used_category :=
    match py_max Z.ltb snd (Dict.items (category_counts (expenses t))) with
    | Some item => fst item
    | None => "None"%string
    end in
  let most_spent_category :=
    match py_max Qltb snd (Dict.items (category_amounts (expenses t))) with
    | Some item => fst item
    | None => "None"%string
    end in
  let dates := map Expense.date (expenses t) in
  mk_statistics total_expenses (py_round2 total_spent)
    (py_round2 avg_expense) most_used_category most_spent_category
    (List.length (budgets t))
    (match py_min_str dates with
     | Some d => d | None => "No expenses"%string end)
    (match py_max_str dates with
     | Some d => d | None => "No expenses"%string end).

(* ================================================================== *)
(** ** [class UserManager] *)
(* ================================================================== *)

(** the number of characters of a UTF-8 encoded string: its bytes that
    are not continuation bytes *)
Definition is_continuation (c : ascii) : bool :=
  match c with Ascii _ _ _ _ _ _ b6 b7 => b7 && negb b6 end.

Fixpoint len (s : string) : nat :=
  match s with
  | EmptyString => O
  | String c s' => if is_continuation c then len s' else S (len s')
  end.

(** [s.split(sep)] for a separator of one character *)
Fixpoint split (sep : ascii) (s : string) : list string :=
  match s with
  | EmptyString => [EmptyString]
  | String c s' =>
      if Ascii.eqb c sep then EmptyString :: split sep s'
      else
        match split sep s' with
        | head :: tail => String c head :: tail
        | [] => [String c EmptyString]
        end
  end.

Module User.
(** the value of [self.users[username]] *)
Record t : Type := mk {
  password_hash : string;
  created_at : string;
  last_login : option string
}.
End User.

(** what is found at the path [self.users_file]; a document is a
    dictionary of user records *)
Inductive users_document : Type :=
| NoUsersFile
| CorruptUsers
| UsersJson (users : Dict.t User.t).

Record UserManager : Type := mk_manager {
  users : Dict.t User.t;
  users_file : users_document
}.

Inductive auth_message : Type :=
| UsernameExists        (* "Username already exists" *)
| UsernameTooShort      (* "Username must be at least 3 characters" *)
| PasswordTooShort      (* "Password must be at least 4 characters" *)
| UserRegistered        (* "User registered successfully" *)
| UserNotFound          (* "User not found" *)
| LoginSuccessful       (* "Login successful" *)
| InvalidPassword.      (* "Invalid password" *)



Definition save_users (m : UserManager) : UserManager :=
  mk_manager (users m) (UsersJson (users m)).

Definition user_exists (m : UserManager) (username : string) : bool :=
  Dict.mem username (users m).


Section Hashing.
(** [hashlib.sha256(s.encode()).hexdigest()] *)
Variable sha256_hexdigest : string -> string.

(** [hash_password], [salt] being the value of [secrets.token_hex(16)] *)
Definition hash_password (password salt : string) : string :=
  (salt ++ "$" ++ sha256_hexdigest (password ++ salt))%string.

(** [verify_password]: any exception gives [False] *)
Definition verify_password (password hashed_password : string) : bool :=
  match split "$" hashed_password with
  | [salt; stored_hash] =>
      String.eqb (sha256_hexdigest (password ++ salt)%string) stored_hash
  | _ => false   (* the unpacking raises ValueError *)
  end.

Definition register_user (m : UserManager) (username password : string)
    (salt : string) (now : datetime) : (bool * auth_message) * UserManager :=
  if Dict.mem username (users m) then ((false, UsernameExists), m)
  else if (len username <? 3)%nat then ((false, UsernameTooShort), m)
  else if (len password <? 4)%nat then ((false, PasswordTooShort), m)
  else
    let m :=
      mk_manager
        (Dict.set username
           (User.mk (hash_password password salt) (strftime_YmdHMS now) None)
           (users m))
        (users_file m) in
    ((true, UserRegistered), save_users m).

Definition login_user (m : UserManager) (username password : string)
    (now : datetime) : (bool * auth_message) * UserManager :=
  match Dict.get username (users m) with
  | None => ((false, UserNotFound), m)
  | Some u =>
      let stored_hash := User.password_hash u in
      if verify_password password stored_hash then
        let m :=
          mk_manager
            (Dict.set username
               (User.mk (User.password_hash u) (User.created_at u)
                  (Some (strftime_YmdHMS now)))
               (users m))
            (users_file m) in
        ((true, LoginSuccessful), save_users m)
      else ((false, InvalidPassword), m)
  end.
End Hashing.

(* ================================================================== *)
(** ** Amounts as binary64 numbers

    The queries whose result depends on how Python's [float] rounds, with
    amounts as IEEE 754 binary64 numbers (the kernel's primitive floats):
    every [+], [-], [*] and [/] rounds to the nearest binary64 number,
    ties to even.  Only the attributes these queries read are kept in the
    tracker. *)
(* ================================================================== *)

Module B64.
Local Open Scope float_scope.

Definition make_id : ExpenseCategory -> string -> string := Budget.make_id.

Module Expense.
Record t : Type := mk {
  amount : float;
  category : ExpenseCategory;
  description : string;
  date : string;
  id : string
}.
End Expense.

Module Budget.
Record t : Type := mk {
  category : ExpenseCategory;
  amount : float;
  period : string
}.

Definition id (b : t) : string := make_id (category b) (period b).
End Budget.

Record ExpenseTracker : Type := mk_tracker {
  expenses : list Expense.t;
  budgets : Dict.t Budget.t
}.

(** [sum(...)] over floats: left to right from 0, every addition rounded
    (CPython 3.12 and later add a correction term at the end, which is
    left out here) *)
Definition py_sum (l : list float) : float := fold_left add l 0.

(** the rational number a finite binary64 number stands for *)
Definition SF2Q (x : spec_float) : option Q :=
  match x with
  | S754_zero _ => Some 0%Q
  | S754_finite s m e =>
      Some (inject_Z (if s then Zneg m else Zpos m) * Qpower 2 e)%Q
  | S754_infinity _ | S754_nan => None
  end.

Definition to_Q (x : float) : option Q := SF2Q (Prim2SF x).

(** the binary64 number nearest to [k / 100], which the conversion of the
    decimal string with two digits after the point returns; [negative]
    is the sign of a zero *)
Definition hundredths (k : Z) (negative : bool) : float :=
  match k with
  | Z0 => if negative then neg_zero else zero
  | Zpos p =>
      SF2Prim (SFdiv prec emax (S754_finite false p 0)
                 (S754_finite false 100 0))
  | Zneg p =>
      SF2Prim (SFdiv prec emax (S754_finite true p 0)
                 (S754_finite false 100 0))
  end.

(** [round(x, 2)] on a float: the exact value of [x] is rounded to two
    decimals, ties to even, and the result converted back; zeros,
    infinities and nan are returned as they are *)
Definition py_round2 (x : float) : float :=
  match Prim2SF x with
  | S754_finite s m e =>
      hundredths
        (round_half_even
           (inject_Z (if s then Zneg m else Zpos m) * Qpower 2 e * 100)%Q)
        s
  | S754_zero _ | S754_infinity _ | S754_nan => x
  end.

Fixpoint filter_by_date (start end_ : datetime) (es : list Expense.t)
  : option (list Expense.t) :=
  match es with
  | [] => Some []
  | exp :: es' =>
      match strptime_Ymd (Expense.date exp) with
      | None => None
      | Some exp_date =>
          match filter_by_date start end_ es' with
          | None => None
          | Some r => Some (if between start exp_date end_ then exp :: r else r)
          end
      end
  end.

Definition get_expenses_by_date_range (t : ExpenseTracker)
    (start_date end_date : string) : list Expense.t :=
  match strptime_Ymd start_date, strptime_Ymd end_date with
  | Some start, Some end_ =>
      match filter_by_date start end_ (expenses t) with
      | Some filtered_expenses => filtered_expenses
      | None => []
      end
  | _, _ => []
  end.

Definition get_total_spent (t : ExpenseTracker)
    (category : option ExpenseCategory)
    (start_date end_date : option string) : float :=
  let expenses := expenses t in
  let expenses :=
    match category with
    | Some category =>
        filter (fun exp => category_eqb (Expense.category exp) category)
          expenses
    | None => expenses
    end in
  let expenses :=
    if truthy start_date && truthy end_date then
      match strptime_Ymd (str start_date), strptime_Ymd (str end_date) with
      | Some start, Some end_ =>
          match filter_by_date start end_ expenses with
          | Some filtered => filtered
          | None => expenses   (* except ValueError: pass *)
          end
      | _, _ => expenses       (* except ValueError: pass *)
      end
    else expenses in
  py_sum (map Expense.amount expenses).

(** [category_totals[k] += a] *)
Definition add_to (k : string) (a : float) (d : Dict.t float)
  : Dict.t float :=
  match Dict.get k d with
  | Some v => Dict.set k (v + a) d
  | None => d   (* KeyError; every category is a key *)
  end.

Definition add_expense_to (totals : Dict.t float) (expense : Expense.t)
  : Dict.t float :=
  add_to (value (Expense.category expense)) (Expense.amount expense) totals.

Definition get_total_spent_by_category (t : ExpenseTracker)
    (start_date end_date : option string) : Dict.t float :=
  let category_totals :=
    Dict.of_items (map (fun category => (value category, 0)) all_categories)
  in
  let expenses :=
    if truthy start_date && truthy end_date
    then get_expenses_by_date_range t (str start_date) (str end_date)
    else expenses t in
  fold_left add_expense_to expenses category_totals.

Record BudgetStatus : Type := mk_status {
  budget_amount : float;
  spent : float;
  remaining : float;
  percentage_used : float;
  is_over_budget : bool;
  status_period : string
}.

Definition get_total_spent_by_period (t : ExpenseTracker)
    (category : ExpenseCategory) (period : string) (now : datetime)
  : float :=
  let '(start_date, end_date) :=
    if String.eqb period "daily" then
      let start_date := strftime_Ymd now in
      (start_date, start_date)
    else if String.eqb period "weekly" then
      (strftime_Ymd (sub_days now (weekday now)), strftime_Ymd now)
    else (* monthly *)
      (strftime_Ymd (replace_day now 1), strftime_Ymd now) in
  get_total_spent t (Some category) (Some start_date) (Some end_date).

(** [x > y] is [y <? x]; a comparison with nan is false *)
Definition get_budget_status (t : ExpenseTracker)
    (category : ExpenseCategory) (period : string) (now : datetime)
  : option BudgetStatus :=
  let budget_id := make_id category period in
  match Dict.get budget_id (budgets t) with
  | None => None
  | Some budget =>
      let spent := get_total_spent_by_period t category period now in
      let remaining := Budget.amount budget - spent in
      let percentage_used :=
        if 0 <? Budget.amount budget
        then (spent / Budget.amount budget) * 100 else 0 in
      Some (mk_status (Budget.amount budget) spent remaining
              (py_round2 percentage_used)
              (Budget.amount budget <? spent) period)
  end.

End B64.

(* ================================================================== *)
(** ** Vocabulary of the statements *)
(* ================================================================== *)

(** the data model's invariant on amounts *)
Definition ledger_invariant (t : ExpenseTracker) : Prop :=
  Forall (fun e => 0 < Expense.amount e) (expenses t).

(** every expense carries a date that parses as [YYYY-MM-DD] *)
Definition dates_well_formed (t : ExpenseTracker) : Prop :=
  Forall (fun e => strptime_Ymd (Expense.date e) <> None) (expenses t).

(** the date of [exp] parses and lies in [[start, end_]], bounds included *)
Definition dated_within (start end_ : datetime) (exp : Expense.t) : bool :=
  match strptime_Ymd (Expense.date exp) with
  | Some d => between start d end_
  | None => false
  end.

(** no expense carries the empty string as its date *)
Definition dates_nonempty (t : ExpenseTracker) : Prop :=
  Forall (fun e => Expense.date e <> EmptyString) (expenses t).

(** the date part of a datetime *)
Definition midnight (dt : datetime) : datetime :=
  mk_datetime (year dt) (month dt) (day dt) 0 0 0.

(** the date of [exp] parses to a day whose ordinal lies in [[lo, hi]],
    bounds included *)
Definition on_days (lo hi : Z) (exp : Expense.t) : bool :=
  match strptime_Ymd (Expense.date exp) with
  | Some d => ((lo <=? toordinal d) && (toordinal d <=? hi))%Z
  | None => false
  end.

(** the record [Expense.from_dict] builds, at time [now], from what
    [to_dict] stored for [e]: the constructor puts today's date in place
    of an empty one *)
Definition reloaded (now : datetime) (e : Expense.t) : Expense.t :=
  Expense.mk (Expense.amount e) (Expense.category e) (Expense.description e)
    (if truthy (Some (Expense.date e)) then Expense.date e
     else strftime_Ymd now)
    (Expense.id e).

(** in a budget dictionary every key is the id of its budget, and no key
    is repeated *)
Definition budgets_well_keyed (t : ExpenseTracker) : Prop :=
  NoDup (Dict.keys (budgets t))
  /\ Forall (fun kb => fst kb = Budget.id (snd kb)) (budgets t).

(** what [get_all_budgets_with_status] holds for a stored budget *)
Definition reports_budget (t : ExpenseTracker) (now : datetime)
    (b : Budget.t) (e : BudgetWithStatus) : Prop :=
  bws_category e = value (Budget.category b)
  /\ bws_period e = Budget.period b
  /\ get_budget_status t (Budget.category b) (Budget.period b) now
     = Some (bws_status e)
  /\ budget_amount (bws_status e) = Budget.amount b
  /\ spent (bws_status e)
     = get_total_spent_by_period t (Budget.category b) (Budget.period b) now.


(** [c in s], for a character *)
Fixpoint contains (c : ascii) (s : string) : bool :=
  match s with
  | EmptyString => false
  | String a s' => Ascii.eqb a c || contains c s'
  end.

(** the users file holds the users in memory *)
Definition users_in_sync (m : UserManager) : Prop :=
  users_file m = UsersJson (users m).

(** the spending over the window of the period of [b] exceeds its amount *)
Definition over_budget (t : ExpenseTracker) (now : datetime) (b : Budget.t)
  : bool :=
  Qltb (Budget.amount b)
    (get_total_spent_by_period t (Budget.category b) (Budget.period b) now).

(** the alert [get_financial_insights] raises for [b] *)
Definition alert_for (t : ExpenseTracker) (now : datetime) (b : Budget.t)
  : alert :=
  OverBudget (Budget.period b) (value (Budget.category b))
    (get_total_spent_by_period t (Budget.category b) (Budget.period b) now)
    (Budget.amount b).

(** the number of expenses of category [c] in [es] *)
Definition count_of (c : ExpenseCategory) (es : list Expense.t) : nat :=
  List.length (filter (fun e => category_eqb (Expense.category e) c) es).

(** the dictionary of counts after the loop over [es] *)
Definition counted (d : Dict.t Z) (es : list Expense.t) : Prop :=
  NoDup (Dict.keys d)
  /\ (forall c,
         Dict.get (value c) d
         = if (count_of c es =? 0)%nat then None
           else Some (Z.of_nat (count_of c es)))
  /\ (forall k, In k (Dict.keys d) -> exists c, k = value c).

(* ================================================================== *)
(** * Properties *)
(* ================================================================== *)

(** ** Facts about dictionaries *)

Section DictFacts.
Context {V : Type}.
Implicit Types (d : Dict.t V) (k : string) (v : V).

Lemma get_set_same k v d : Dict.get k (Dict.set k v d) = Some v.
Proof.
  induction d as [|[k' v'] d IH]; simpl.
  - now rewrite String.eqb_refl.
  - destruct (String.eqb k' k) eqn:E; simpl; rewrite E; auto.
Qed.

Lemma get_set_other k k' v d :
  k' <> k -> Dict.get k' (Dict.set k v d) = Dict.get k' d.
Proof.
  intros Hne. induction d as [|[k0 v0] d IH]; simpl.
  - destruct (String.eqb_spec k k'); congruence.
  - destruct (String.eqb_spec k0 k) as [->|Hk]; simpl.
    + destruct (String.eqb_spec k k'); congruence.
    + now rewrite IH.
Qed.

Lemma keys_set_present k v d :
  Dict.get k d <> None -> Dict.keys (Dict.set k v d) = Dict.keys d.
Proof.
  induction d as [|[k' v'] d IH]; simpl; [congruence|].
  destruct (String.eqb k' k); simpl; intros H; [reflexivity|].
  f_equal. now apply IH.
Qed.

Lemma set_absent k v d :
  Dict.get k d = None -> Dict.set k v d = d ++ [(k, v)].
Proof.
  induction d as [|[k' v'] d IH]; simpl; [reflexivity|].
  destruct (String.eqb k' k); [discriminate|].
  intros H. now rewrite IH.
Qed.

Lemma get_None_not_In k d : Dict.get k d = None -> ~ In k (Dict.keys d).
Proof.
  induction d as [|[k' v'] d IH]; simpl; [tauto|].
  destruct (String.eqb_spec k' k); [discriminate|].
  intros H [?|?]; [congruence|]. now apply IH.
Qed.

Lemma not_In_get_None k d : ~ In k (Dict.keys d) -> Dict.get k d = None.
Proof.
  induction d as [|[k' v'] d IH]; simpl; [reflexivity|].
  intros H. destruct (String.eqb_spec k' k); [tauto|]. apply IH. tauto.
Qed.

Lemma get_Some_In k v d : Dict.get k d = Some v -> In (k, v) d.
Proof.
  induction d as [|[k' v'] d IH]; simpl; [discriminate|].
  destruct (String.eqb_spec k' k) as [->|].
  - intros [= ->]. now left.
  - intros H. right. now apply IH.
Qed.

Lemma In_get_Some k v d :
  NoDup (Dict.keys d) -> In (k, v) d -> Dict.get k d = Some v.
Proof.
  induction d as [|[k' v'] d IH]; simpl; [tauto|].
  intros Hnd [[= -> ->]|Hin].
  - now rewrite String.eqb_refl.
  - inversion Hnd as [|? ? Hk' Hnd']; subst.
    destruct (String.eqb_spec k' k) as [->|].
    + exfalso. apply Hk'. change k with (fst (k, v)). now apply in_map.
    + now apply IH.
Qed.
End DictFacts.

(** ** Facts about the loops over the ledger *)

Lemma find_app_None {A} (p : A -> bool) l x :
  find p l = None -> find p (l ++ [x]) = (if p x then Some x else None).
Proof.
  induction l as [|y l IH]; simpl; [reflexivity|].
  destruct (p y); [discriminate|exact IH].
Qed.

Lemma find_filter_negb {A} (p : A -> bool) l :
  find p (filter (fun x => negb (p x)) l) = None.
Proof.
  induction l as [|y l IH]; simpl; [reflexivity|].
  destruct (p y) eqn:E; simpl; [exact IH|]. now rewrite E.
Qed.

Lemma filter_negb_shorter {A} (p : A -> bool) l :
  find p l <> None ->
  (List.length (filter (fun x => negb (p x)) l) < List.length l)%nat.
Proof.
  induction l as [|y l IH]; simpl; [congruence|].
  destruct (p y); simpl; intros H.
  - pose proof (filter_length_le (fun x => negb (p x)) l). lia.
  - apply IH in H. lia.
Qed.

Lemma Qle_bool_false a b : Qle_bool a b = false <-> b < a.
Proof.
  split.
  - intros H. apply Qnot_le_lt. intros Hle.
    apply Qle_bool_iff in Hle. congruence.
  - intros H. destruct (Qle_bool a b) eqn:E; [|reflexivity].
    apply Qle_bool_iff in E. exfalso. now apply (Qlt_not_le _ _ H).
Qed.

Lemma Qltb_true a b : Qltb a b = true <-> a < b.
Proof.
  unfold Qltb. rewrite negb_true_iff. apply Qle_bool_false.
Qed.

Lemma Qltb_false a b : Qltb a b = false <-> b <= a.
Proof.
  unfold Qltb. rewrite negb_false_iff. apply Qle_bool_iff.
Qed.

(** what [update_loop] computes, in terms of the first expense with
    the given id *)
Lemma update_loop_None es i a c d dt :
  find (fun e => String.eqb (Expense.id e) i) es = None ->
  update_loop es i a c d dt = None.
Proof.
  induction es as [|e es IH]; simpl; [reflexivity|].
  destruct (String.eqb (Expense.id e) i); [discriminate|].
  intros H. now rewrite IH.
Qed.

Lemma update_loop_invalid es i q c d dt :
  find (fun e => String.eqb (Expense.id e) i) es <> None ->
  q <= 0 ->
  update_loop es i (Some q) c d dt = Some (inl AmountMustBePositive).
Proof.
  intros Hf Hq. apply Qle_bool_iff in Hq.
  induction es as [|e es IH]; simpl in *; [congruence|].
  destruct (String.eqb (Expense.id e) i).
  - now rewrite Hq.
  - now rewrite IH.
Qed.

Lemma update_loop_found es i a c d dt e :
  find (fun e => String.eqb (Expense.id e) i) es = Some e ->
  (forall q, a = Some q -> 0 < q) ->
  exists pre post,
    es = pre ++ e :: post
    /\ find (fun e => String.eqb (Expense.id e) i) pre = None
    /\ update_loop es i a c d dt
       = Some (inr (pre ++ apply_overrides e a c d dt :: post)).
Proof.
  intros Hf Ha.
  induction es as [|e0 es IH]; simpl in *; [discriminate|].
  destruct (String.eqb (Expense.id e0) i) eqn:E.
  - injection Hf as ->. exists [], es. repeat split.
    destruct a as [q|]; [|reflexivity].
    specialize (Ha q eq_refl). apply (proj2 (Qle_bool_false _ _)) in Ha.
    now rewrite Ha.
  - destruct (IH Hf) as (pre & post & -> & Hpre & ->).
    exists (e0 :: pre), post. simpl. rewrite E. now repeat split.
Qed.

(** ** C7: add, get, delete *)

Lemma find_app_Some {A} (p : A -> bool) l l' x :
  find p l = Some x -> find p (l ++ l') = Some x.
Proof.
  induction l as [|a l IH]; simpl; [discriminate|].
  destruct (p a); [trivial|exact IH].
Qed.

(** C7, on the input that refutes it.  The identifier of a new expense is
    its date followed by the random token; when a second expense is added
    on the same date and the token comes out the same, [add_expense]
    succeeds and reports the identifier of the first one, and
    [get_expense] on it returns the first record, not what was added. *)
Lemma add_with_used_id_gets_older_record :
  let now := mk_datetime 2024 1 15 9 0 0 in
  let t0 := mk_tracker "ann" [] Dict.empty NoFile in
  exists t1 t2 e,
    add_expense t0 50 FOOD "lunch" None now "0a1b2c3d4e5f6071"
    = ((true, ExpenseAdded "2024-01-15_0a1b2c3d4e5f6071"), t1)
    /\ add_expense t1 20 BILLS "stamp" (Some "2024-01-15"%string) now
         "0a1b2c3d4e5f6071"
       = ((true, ExpenseAdded "2024-01-15_0a1b2c3d4e5f6071"), t2)
    /\ get_expense t2 "2024-01-15_0a1b2c3d4e5f6071" = Some e
    /\ Expense.amount e = 50
    /\ Expense.category e = FOOD
    /\ Expense.description e = "lunch"%string
    /\ ~ Expense.amount e == 20.
Proof.
  intros now t0. eexists. eexists. eexists.
  split; [reflexivity|]. split; [reflexivity|]. split; [reflexivity|].
  split; [reflexivity|]. split; [reflexivity|]. split; [reflexivity|].
  simpl. discriminate.
Qed.

(** C7, amended.  For a positive amount (the category is valid by typing
    and the date is not checked), [add_expense] succeeds, appends the new
    record (the amount, category and description that were given, the
    date that was given, or today's date when none or an empty one was,
    and the generated identifier) and reports that identifier;
    [get_expense] on it returns the new record when the identifier was
    not yet used in the ledger, and the oldest record carrying it
    otherwise.  And for every identifier present in the ledger,
    [delete_expense] succeeds and [get_expense] on it then returns
    nothing. *)
Theorem add_then_get_delete_then_get :
  forall (t : ExpenseTracker) (now : datetime),
    (forall amount category description date token,
        0 < amount ->
        let added :=
          Expense.init amount category description date now token in
        exists t',
          add_expense t amount category description date now token
          = ((true, ExpenseAdded (Expense.id added)), t')
          /\ expenses t' = expenses t ++ [added]
          /\ get_expense t' (Expense.id added)
             = match get_expense t (Expense.id added) with
               | Some older => Some older
               | None => Some added
               end
          /\ Expense.amount added = amount
          /\ Expense.category added = category
          /\ Expense.description added = description
          /\ Expense.date added
             = (if truthy date then str date else strftime_Ymd now)
          /\ Expense.id added
             = (Expense.date added ++ "_" ++ token)%string)
    /\ (forall expense_id,
           get_expense t expense_id <> None ->
           exists t',
             delete_expense t expense_id now = ((true, ExpenseDeleted), t')
             /\ get_expense t' expense_id = None).
Proof.
  intros t now. split.
  - intros amount category description date token Hpos added.
    unfold add_expense. apply (proj2 (Qle_bool_false _ _)) in Hpos.
    rewrite Hpos. fold added.
    eexists. split; [reflexivity|]. split; [reflexivity|].
    split; [|split; [reflexivity|split; [reflexivity|split;
      [reflexivity|split; [|reflexivity]]]]].
    + unfold get_expense. cbn [expenses save_data with_expenses].
      destruct (find _ (expenses t)) as [older|] eqn:E.
      * now apply find_app_Some.
      * rewrite (find_app_None _ _ _ E). now rewrite String.eqb_refl.
    + subst added. destruct date as [d|]; simpl; [|reflexivity].
      destruct (String.eqb d ""); reflexivity.
  - intros expense_id Hin. unfold delete_expense, get_expense in *. simpl.
    pose proof (filter_negb_shorter _ _ Hin) as Hlen.
    apply Nat.ltb_lt in Hlen. rewrite Hlen.
    eexists. split; [reflexivity|]. simpl. apply find_filter_negb.
Qed.

Lemma add_then_get_delete_then_get_witness :
  let t := mk_tracker "ann" [] Dict.empty NoFile in
  let now := mk_datetime 2024 1 15 9 0 0 in
  exists t' t'',
    add_expense t 50 FOOD "lunch" (Some "2024-01-15"%string) now "0a1b"
    = ((true, ExpenseAdded "2024-01-15_0a1b"), t')
    /\ get_expense t' "2024-01-15_0a1b"
       = Some (Expense.mk 50 FOOD "lunch" "2024-01-15" "2024-01-15_0a1b")
    /\ delete_expense t' "2024-01-15_0a1b" now = ((true, ExpenseDeleted), t'')
    /\ get_expense t'' "2024-01-15_0a1b" = None.
Proof.
  intros t now.
  destruct (proj1 (add_then_get_delete_then_get t now) 50 FOOD "lunch"%string
              (Some "2024-01-15"%string) "0a1b"%string)
    as (t' & H1 & _ & H2 & _).
  - reflexivity.
  - simpl in H1, H2.
    destruct (proj2 (add_then_get_delete_then_get t' now)
                "2024-01-15_0a1b"%string)
      as (t'' & H4 & H5).
    + rewrite H2. discriminate.
    + exists t', t''. repeat split; assumption.
Defined.

(** ** C8: update *)

(** C8. [update_expense] fails with "not found" when no expense has the
    given id, and with "amount must be positive" when one has and a
    supplied amount is not positive; in both cases the tracker (ledger,
    budgets and stored file) is left as it was.  Otherwise it succeeds and
    rewrites only the first expense with that id: every other record is
    unchanged, the id of the updated record is unchanged, a field with no
    override keeps its value and a field with an override takes it. *)
Theorem update_expense_frame :
  forall (t : ExpenseTracker) (expense_id : string) (amount : option Q)
         (category : option ExpenseCategory)
         (description date : option string) (now : datetime),
    let r := update_expense t expense_id amount category description date now
    in
    (get_expense t expense_id = None -> r = ((false, ExpenseNotFound), t))
    /\ (forall a, get_expense t expense_id <> None -> amount = Some a ->
                  a <= 0 -> r = ((false, AmountMustBePositive), t))
    /\ (forall e, get_expense t expense_id = Some e ->
                  (forall a, amount = Some a -> 0 < a) ->
        exists pre post e',
          expenses t = pre ++ e :: post
          /\ fst r = (true, ExpenseUpdated)
          /\ expenses (snd r) = pre ++ e' :: post
          /\ budgets (snd r) = budgets t
          /\ Expense.id e' = Expense.id e
          /\ Expense.amount e'
             = match amount with Some a => a | None => Expense.amount e end
          /\ Expense.category e'
             = match category with
               | Some c => c | None => Expense.category e end
          /\ Expense.description e'
             = match description with
               | Some d => d | None => Expense.description e end
          /\ Expense.date e'
             = match date with Some d => d | None => Expense.date e end).
Proof.
  intros t expense_id amount category description date now r.
  unfold get_expense. subst r. unfold update_expense. repeat split.
  - intros H. now rewrite (update_loop_None _ _ _ _ _ _ H).
  - intros a H -> Ha. now rewrite (update_loop_invalid _ _ _ _ _ _ H Ha).
  - intros e H Ha.
    destruct (update_loop_found _ _ _ category description date _ H Ha)
      as (pre & post & Hes & _ & ->).
    exists pre, post.
    exists (apply_overrides e amount category description date).
    simpl. now repeat split.
Qed.

Lemma update_expense_frame_witness :
  let e := Expense.mk 50 FOOD "lunch" "2024-01-15" "2024-01-15_0a1b" in
  let t := mk_tracker "ann" [e] Dict.empty NoFile in
  let now := mk_datetime 2024 1 16 9 0 0 in
  update_expense t "nope" (Some (-1)) None None None now
  = ((false, ExpenseNotFound), t)
  /\ update_expense t "2024-01-15_0a1b" (Some 0) None None None now
     = ((false, AmountMustBePositive), t)
  /\ exists pre post e',
       expenses (snd (update_expense t "2024-01-15_0a1b" (Some 20) None
                        (Some "dinner"%string) None now))
       = pre ++ e' :: post
       /\ Expense.id e' = "2024-01-15_0a1b"%string
       /\ Expense.date e' = "2024-01-15"%string.
Proof.
  intros e t now. split; [|split].
  - apply (proj1 (update_expense_frame t "nope"%string (Some (-1)) None None
                    None now)).
    reflexivity.
  - apply (proj1 (proj2 (update_expense_frame t "2024-01-15_0a1b"%string
                           (Some 0) None None None now)) 0).
    + discriminate.
    + reflexivity.
    + discriminate.
  - destruct (proj2 (proj2 (update_expense_frame t "2024-01-15_0a1b"%string
                              (Some 20) None (Some "dinner"%string) None
                              now)) e)
      as (pre & post & e' & _ & _ & H3 & _ & H5 & _ & _ & _ & H9).
    + reflexivity.
    + intros a [= <-]. reflexivity.
    + exists pre, post, e'. repeat split; assumption.
Defined.

(** ** C9: set_budget *)

(** C9, as stated, fails: a period outside daily, weekly, monthly is
    accepted, and the budget set is changed. *)
Lemma set_budget_accepts_unknown_period :
  let t := mk_tracker "ann" [] Dict.empty NoFile in
  let now := mk_datetime 2024 1 15 9 0 0 in
  let r := set_budget t FOOD 100 "yearly" now in
  ~ In "yearly"%string ["daily"; "weekly"; "monthly"]%string
  /\ fst (fst r) = true
  /\ budgets (snd r) <> budgets t
  /\ ~ (fst (fst r) = false /\ budgets (snd r) = budgets t).
Proof.
  intros t now r. repeat split.
  - simpl. intros [H|[H|[H|[]]]]; discriminate H.
  - discriminate.
  - intros [H _]. discriminate H.
Qed.

(** C9, amended. [set_budget] fails with "budget amount cannot be
    negative" when the amount is negative and then leaves the tracker as
    it was.  For any other amount it succeeds whatever the period string
    is: the budget [(category, amount, period)] is then the entry of its
    id, every other entry is unchanged, and when the pair already had an
    entry that entry is overwritten where it stands (the keys and their
    order do not change). *)
Theorem set_budget_spec :
  forall (t : ExpenseTracker) (category : ExpenseCategory) (amount : Q)
         (period : string) (now : datetime),
    let r := set_budget t category amount period now in
    let budget_id := Budget.make_id category period in
    (amount < 0 -> r = ((false, BudgetNegative), t))
    /\ (0 <= amount ->
        fst r = (true, BudgetSet category amount period)
        /\ expenses (snd r) = expenses t
        /\ Dict.get budget_id (budgets (snd r))
           = Some (Budget.mk category amount period)
        /\ (forall k, k <> budget_id ->
                      Dict.get k (budgets (snd r)) = Dict.get k (budgets t))
        /\ (Dict.get budget_id (budgets t) <> None ->
            Dict.keys (budgets (snd r)) = Dict.keys (budgets t))).
Proof.
  intros t category amount period now r budget_id. subst r.
  unfold set_budget. split.
  - intros H. apply Qltb_true in H. now rewrite H.
  - intros H. apply Qltb_false in H. rewrite H. simpl.
    repeat split.
    + apply get_set_same.
    + intros k Hk. now apply get_set_other.
    + apply keys_set_present.
Qed.

Lemma set_budget_spec_witness :
  let t :=
    mk_tracker "ann" [] [("budget_Food_weekly"%string,
                          Budget.mk FOOD 10 "weekly")] NoFile in
  let now := mk_datetime 2024 1 15 9 0 0 in
  set_budget t FOOD (-5) "weekly" now = ((false, BudgetNegative), t)
  /\ Dict.get "budget_Food_weekly" (budgets (snd (set_budget t FOOD 70
                                                    "weekly" now)))
     = Some (Budget.mk FOOD 70 "weekly")
  /\ Dict.keys (budgets (snd (set_budget t FOOD 70 "weekly" now)))
     = ["budget_Food_weekly"%string].
Proof.
  intros t now. split; [|split].
  - apply (proj1 (set_budget_spec t FOOD (-5) "weekly"%string now)).
    reflexivity.
  - apply (proj2 (set_budget_spec t FOOD 70 "weekly"%string now)).
    discriminate.
  - apply (proj2 (set_budget_spec t FOOD 70 "weekly"%string now)).
    + discriminate.
    + discriminate.
Defined.

(** ** Sums and filters *)

Lemma fold_left_Qplus_acc l a :
  fold_left Qplus l a == a + fold_left Qplus l 0.
Proof.
  revert a. induction l as [|y l IH]; intros a; simpl.
  - ring.
  - rewrite (IH (a + y)), (IH (0 + y)). ring.
Qed.

Lemma py_sum_cons x l : py_sum (x :: l) == x + py_sum l.
Proof.
  unfold py_sum. simpl. rewrite fold_left_Qplus_acc. ring.
Qed.

Lemma py_sum_nil : py_sum [] = 0.
Proof. reflexivity. Qed.

Section SumFilter.
Context {A : Type} (f : A -> Q).

Lemma py_sum_nonneg l :
  Forall (fun x => 0 <= f x) l -> 0 <= py_sum (map f l).
Proof.
  induction 1 as [|x l Hx _ IH]; simpl.
  - rewrite py_sum_nil. apply Qle_refl.
  - rewrite py_sum_cons. lra.
Qed.


Lemma Forall_filter (P : A -> Prop) (p : A -> bool) l :
  Forall P l -> Forall P (filter p l).
Proof.
  induction 1 as [|x l Hx _ IH]; simpl; [constructor|].
  destruct (p x); [constructor|]; assumption.
Qed.


Lemma filter_both (p q : A -> bool) l :
  filter p (filter q l) = filter (fun x => q x && p x) l.
Proof.
  induction l as [|x l IH]; simpl; [reflexivity|].
  destruct (q x) eqn:Eq; simpl; [destruct (p x)|]; now rewrite IH.
Qed.
End SumFilter.

(** [filter_by_date] is [filter] as soon as every date parses *)
Lemma filter_by_date_Some start end_ es :
  Forall (fun e => strptime_Ymd (Expense.date e) <> None) es ->
  filter_by_date start end_ es = Some (filter (dated_within start end_) es).
Proof.
  induction 1 as [|e es He _ IH]; simpl; [reflexivity|].
  unfold dated_within at 1.
  destruct (strptime_Ymd (Expense.date e)); [|congruence].
  rewrite IH. now destruct (between start d end_).
Qed.


Lemma strptime_truthy s d : strptime_Ymd s = Some d -> truthy (Some s) = true.
Proof. destruct s; [discriminate|reflexivity]. Qed.

(** with bounds that parse and a ledger whose dates parse,
    [get_total_spent] sums the expenses that pass both tests *)
Lemma get_total_spent_both t c S E start end_ :
  strptime_Ymd S = Some start ->
  strptime_Ymd E = Some end_ ->
  dates_well_formed t ->
  get_total_spent t (Some c) (Some S) (Some E)
  = py_sum
      (map Expense.amount
         (filter (fun e => category_eqb (Expense.category e) c
                           && dated_within start end_ e)
            (expenses t))).
Proof.
  intros HS HE Hwf. unfold get_total_spent.
  rewrite (strptime_truthy _ _ HS), (strptime_truthy _ _ HE). simpl.
  rewrite HS, HE.
  rewrite filter_by_date_Some by (apply Forall_filter; exact Hwf).
  now rewrite filter_both.
Qed.

(** ** C1: the category filter and the date filter are conjoined *)



(** ** C5: totals by category *)

Lemma value_inj c c' : value c = value c' -> c = c'.
Proof. destruct c, c'; simpl; intros H; try reflexivity; discriminate H. Qed.

Lemma category_eqb_spec c c' : reflect (c = c') (category_eqb c c').
Proof. destruct c, c'; simpl; constructor; congruence. Qed.

(** decimal literals below denote the nearest binary64 number, as in
    Python *)
Set Warnings "-inexact-float".

(** the accumulation loop of [B64.get_total_spent_by_category]: the entry
    of a category is folded over the amounts of that category, in the
    order of the ledger *)
Lemma b64_totals_loop_keys (es : list B64.Expense.t) (d : Dict.t float) :
  Dict.keys (fold_left B64.add_expense_to es d) = Dict.keys d.
Proof.
  revert d. induction es as [|e es IH]; intros d; simpl; [reflexivity|].
  rewrite IH. unfold B64.add_expense_to, B64.add_to.
  destruct (Dict.get _ d) eqn:E; [|reflexivity].
  apply keys_set_present. congruence.
Qed.

Lemma b64_totals_loop_get (es : list B64.Expense.t) (d : Dict.t float) c x0 :
  (forall c', Dict.get (value c') d <> None) ->
  Dict.get (value c) d = Some x0 ->
  Dict.get (value c) (fold_left B64.add_expense_to es d)
  = Some (fold_left PrimFloat.add
            (map B64.Expense.amount
               (filter (fun e => category_eqb (B64.Expense.category e) c) es))
            x0).
Proof.
  revert d x0. induction es as [|e es IH]; intros d x0 Hd Hx; simpl.
  - exact Hx.
  - unfold B64.add_expense_to at 2, B64.add_to.
    destruct (Dict.get (value (B64.Expense.category e)) d) as [v|] eqn:E;
      [|now apply Hd in E].
    destruct (category_eqb_spec (B64.Expense.category e) c) as [Hc|Hc].
    + rewrite Hc in E. assert (v = x0) by congruence. subst v.
      simpl. apply IH.
      * intros c'. destruct (String.eqb_spec (value c') (value (B64.Expense.category e))) as [->|Hne].
        -- rewrite get_set_same. discriminate.
        -- rewrite get_set_other by exact Hne. apply Hd.
      * rewrite Hc. apply get_set_same.
    + apply IH.
      * intros c'. destruct (String.eqb_spec (value c') (value (B64.Expense.category e))) as [->|Hne].
        -- rewrite get_set_same. discriminate.
        -- rewrite get_set_other by exact Hne. apply Hd.
      * rewrite get_set_other; [exact Hx|].
        intros Hv. apply Hc. symmetry. now apply value_inj.
Qed.

(** C5, on the input that refutes it.  With binary64 amounts, on the
    ledger [Food 0.1, Bills 0.1, Food 0.4] the values of the mapping add
    up to 0.6 (the binary64 number nearest to it) while the unfiltered
    total is the next binary64 number, 0.6000000000000001. *)
Lemma totals_by_category_sum_differs :
  let t :=
    B64.mk_tracker
      [B64.Expense.mk 0.1 FOOD "lunch" "2024-01-15" "2024-01-15_0a";
       B64.Expense.mk 0.1 BILLS "stamp" "2024-01-15" "2024-01-15_0b";
       B64.Expense.mk 0.4 FOOD "snack" "2024-01-16" "2024-01-16_0c"]
      [] in
  let totals := B64.get_total_spent_by_category t None None in
  Dict.get "Food" totals = Some 0.5%float
  /\ Dict.get "Bills" totals = Some 0.1%float
  /\ B64.py_sum (Dict.values totals) = 0x1.3333333333333p-1%float
  /\ B64.get_total_spent t None None None = 0x1.3333333333334p-1%float
  /\ B64.py_sum (Dict.values totals) <> B64.get_total_spent t None None None.
Proof.
  intros t totals.
  split; [reflexivity|]. split; [reflexivity|].
  split; [reflexivity|]. split; [reflexivity|].
  intros H.
  apply (f_equal (fun x => PrimFloat.eqb x 0x1.3333333333333p-1%float)) in H.
  vm_compute in H. discriminate H.
Qed.

(** C5, amended.  With no date bounds, the keys of the mapping
    [get_total_spent_by_category] returns are exactly the eight category
    values, in the order of the enumeration, whatever the ledger holds;
    and the entry of a category is the sum of the amounts of its expenses,
    added one by one in the order of the ledger, starting from zero (so it
    is zero for a category without expenses). *)
Theorem totals_by_category_binary64 :
  forall t : B64.ExpenseTracker,
    let totals := B64.get_total_spent_by_category t None None in
    Dict.keys totals
    = ["Food"; "Transportation"; "Entertainment"; "Shopping";
       "Bills"; "Education"; "Healthcare"; "Other"]%string
    /\ (forall c,
           Dict.get (value c) totals
           = Some (B64.py_sum
                     (map B64.Expense.amount
                        (filter
                           (fun e => category_eqb (B64.Expense.category e) c)
                           (B64.expenses t)))))
    /\ (forall c,
           Forall (fun e => B64.Expense.category e <> c) (B64.expenses t) ->
           Dict.get (value c) totals = Some 0%float).
Proof.
  intros t totals. subst totals. unfold B64.get_total_spent_by_category.
  simpl.
  set (d0 := Dict.of_items
               (map (fun category => (value category, 0%float))
                  all_categories)).
  assert (Hc : forall c, Dict.get (value c) d0 = Some 0%float).
  { intros c. destruct c; reflexivity. }
  assert (Hall : forall c', Dict.get (value c') d0 <> None).
  { intros c'. rewrite Hc. discriminate. }
  split; [|split].
  - now rewrite b64_totals_loop_keys.
  - intros c. now apply b64_totals_loop_get.
  - intros c Hno. rewrite (b64_totals_loop_get _ _ c 0%float Hall (Hc c)).
    replace (filter _ (B64.expenses t)) with (@nil B64.Expense.t);
      [reflexivity|].
    symmetry. induction Hno as [|e es He _ IH]; simpl; [reflexivity|].
    destruct (category_eqb_spec (B64.Expense.category e) c);
      [contradiction|exact IH].
Qed.

Lemma totals_by_category_binary64_witness :
  let t :=
    B64.mk_tracker
      [B64.Expense.mk 0.1 FOOD "lunch" "2024-01-15" "2024-01-15_0a";
       B64.Expense.mk 0.1 BILLS "stamp" "2024-01-15" "2024-01-15_0b";
       B64.Expense.mk 0.4 FOOD "snack" "2024-01-16" "2024-01-16_0c"]
      [] in
  Dict.get "Other" (B64.get_total_spent_by_category t None None)
  = Some 0%float.
Proof.
  intros t.
  apply (proj2 (proj2 (totals_by_category_binary64 t)) OTHER).
  repeat constructor; discriminate.
Defined.

(** ** C2: budget status *)

Lemma round_half_even_near x :
  inject_Z (round_half_even x) - x <= 1 # 2
  /\ x - inject_Z (round_half_even x) <= 1 # 2.
Proof.
  unfold round_half_even.
  pose proof (Qfloor_le x) as Hlo. pose proof (Qlt_floor x) as Hhi.
  rewrite inject_Z_plus in Hhi. change (inject_Z 1) with 1 in Hhi.
  destruct (Qcompare_spec (x - inject_Z (Qfloor x)) (1 # 2)) as [H|H|H].
  - destruct (Z.even (Qfloor x)).
    + lra.
    + rewrite inject_Z_plus. change (inject_Z 1) with 1. lra.
  - lra.
  - rewrite inject_Z_plus. change (inject_Z 1) with 1. lra.
Qed.

(** on a finite number other than zero, [round(x, 2)] is the binary64
    number nearest to [k / 100] for an integer [k] at most one half away
    from a hundred times the exact value of [x] *)
Lemma b64_round2_finite (x : float) s m e :
  Prim2SF x = S754_finite s m e ->
  exists (k : Z) (q : Q),
    B64.to_Q x = Some q
    /\ B64.py_round2 x = B64.hundredths k s
    /\ inject_Z k - q * 100 <= 1 # 2
    /\ q * 100 - inject_Z k <= 1 # 2.
Proof.
  intros Hx. unfold B64.py_round2, B64.to_Q. rewrite Hx. simpl.
  set (q := inject_Z (if s then Z.neg m else Z.pos m) * Qpower 2 e).
  exists (round_half_even (q * 100)), q.
  split; [reflexivity|]. split; [reflexivity|].
  apply round_half_even_near.
Qed.

(** C2, on the inputs that refute it.  With a budget of 160 and 23 spent,
    [s / B * 100] is 14.375, which rounds to 14.38; the binary64 quotient
    and product give 14.374999999999998 and the status reports 14.37.
    With a budget of 100 and 0.1 spent, the reported [remaining] is not
    the exact difference of the two numbers. *)
Lemma budget_status_rounds_in_binary64 :
  let now := mk_datetime 2024 1 20 9 0 0 in
  (let t :=
     B64.mk_tracker
       [B64.Expense.mk 23 FOOD "lunch" "2024-01-15" "2024-01-15_0a"]
       [("budget_Food_monthly"%string, B64.Budget.mk FOOD 160 "monthly")] in
   exists st,
     B64.get_budget_status t FOOD "monthly" now = Some st
     /\ B64.budget_amount st = 160%float
     /\ B64.spent st = 23%float
     /\ (23 / 160 * 100)%float = 0x1.cbfffffffffffp+3%float
     /\ py_round2 (23 / 160 * 100) == 1438 # 100
     /\ B64.percentage_used st = B64.hundredths 1437 false
     /\ B64.percentage_used st <> B64.hundredths 1438 false)
  /\ (let t :=
        B64.mk_tracker
          [B64.Expense.mk 0.1 FOOD "snack" "2024-01-15" "2024-01-15_0a"]
          [("budget_Food_monthly"%string, B64.Budget.mk FOOD 100 "monthly")] in
      exists st B s r,
        B64.get_budget_status t FOOD "monthly" now = Some st
        /\ B64.to_Q (B64.budget_amount st) = Some B
        /\ B64.to_Q (B64.spent st) = Some s
        /\ B64.to_Q (B64.remaining st) = Some r
        /\ ~ r == B - s).
Proof.
  intros now. split.
  - intros t. eexists. split; [reflexivity|].
    split; [reflexivity|]. split; [reflexivity|]. split; [reflexivity|].
    split; [reflexivity|]. split; [reflexivity|].
    intros H.
    apply (f_equal (fun x => PrimFloat.eqb x (B64.hundredths 1438 false)))
      in H.
    vm_compute in H. discriminate H.
  - intros t. eexists. eexists. eexists. eexists.
    split; [reflexivity|]. split; [reflexivity|].
    split; [reflexivity|]. split; [reflexivity|].
    vm_compute. discriminate.
Qed.

(** C2, amended.  For a stored budget of amount [B] for
    [(category, period)], with [s] the spending of the category in the
    current window of the period, both binary64 numbers,
    [get_budget_status] reports the budget amount [B], the spending [s],
    as [remaining] the binary64 difference [B - s], [is_over_budget]
    exactly when [s > B], and as [percentage_used]: when [B > 0], the
    binary64 quotient [s / B] times 100, that product rounded to two
    decimals (when it is finite and not zero: the binary64 number nearest
    to a number of hundredths at most half a hundredth away from it);
    otherwise (so when [B] is zero) zero. *)
Theorem budget_status_fields_binary64 :
  forall (t : B64.ExpenseTracker) (category : ExpenseCategory)
         (period : string) (now : datetime) (b : B64.Budget.t),
    Dict.get (B64.make_id category period) (B64.budgets t) = Some b ->
    let B := B64.Budget.amount b in
    let s := B64.get_total_spent_by_period t category period now in
    exists st,
      B64.get_budget_status t category period now = Some st
      /\ B64.budget_amount st = B
      /\ B64.spent st = s
      /\ B64.remaining st = (B - s)%float
      /\ (B64.is_over_budget st = true <-> (B <? s)%float = true)
      /\ ((0 <? B)%float = true ->
          B64.percentage_used st = B64.py_round2 (s / B * 100)%float)
      /\ (forall sign m e,
             (0 <? B)%float = true ->
             Prim2SF (s / B * 100)%float = S754_finite sign m e ->
             exists (k : Z) (q : Q),
               B64.to_Q (s / B * 100)%float = Some q
               /\ B64.percentage_used st = B64.hundredths k sign
               /\ inject_Z k - q * 100 <= 1 # 2
               /\ q * 100 - inject_Z k <= 1 # 2)
      /\ ((0 <? B)%float = false -> B64.percentage_used st = 0%float)
      /\ (B = 0%float -> B64.percentage_used st = 0%float).
Proof.
  intros t category period now b Hb B s.
  unfold B64.get_budget_status. rewrite Hb. fold B s.
  eexists. split; [reflexivity|]. cbn [B64.budget_amount B64.spent
    B64.remaining B64.is_over_budget B64.percentage_used].
  split; [reflexivity|]. split; [reflexivity|]. split; [reflexivity|].
  split; [reflexivity|].
  split; [|split; [|split]].
  - intros H. now rewrite H.
  - intros sign m e H Hp. rewrite H. exact (b64_round2_finite _ _ _ _ Hp).
  - intros H. now rewrite H.
  - intros H. now rewrite H.
Qed.

Lemma budget_status_fields_binary64_witness :
  let t :=
    B64.mk_tracker
      [B64.Expense.mk 23 FOOD "lunch" "2024-01-15" "2024-01-15_0a"]
      [("budget_Food_monthly"%string, B64.Budget.mk FOOD 160 "monthly");
       ("budget_Bills_daily"%string, B64.Budget.mk BILLS 0 "daily")] in
  let now := mk_datetime 2024 1 20 9 0 0 in
  (exists st,
      B64.get_budget_status t FOOD "monthly" now = Some st
      /\ B64.remaining st = 137%float
      /\ B64.percentage_used st = 14.37%float)
  /\ (exists st,
         B64.get_budget_status t BILLS "daily" now = Some st
         /\ B64.percentage_used st = 0%float).
Proof.
  intros t now. split.
  - destruct (budget_status_fields_binary64 t FOOD "monthly"%string now
                (B64.Budget.mk FOOD 160 "monthly") eq_refl)
      as (st & H1 & _ & _ & H4 & _ & H6 & _).
    exists st. split; [exact H1|]. split.
    + rewrite H4. reflexivity.
    + rewrite H6 by reflexivity. reflexivity.
  - destruct (budget_status_fields_binary64 t BILLS "daily"%string now
                (B64.Budget.mk BILLS 0 "daily") eq_refl)
      as (st & H1 & _ & _ & _ & _ & _ & _ & _ & H9).
    exists st. split; [exact H1|]. apply H9. reflexivity.
Defined.

(** ** C4: the budget a spending summary reports for a category *)

Lemma categories_loop_get {V} (F : ExpenseCategory -> V) c :
  Dict.get (value c)
    (fold_left (fun cats category => Dict.set (value category) (F category) cats)
       all_categories Dict.empty)
  = Some (F c).
Proof. destruct c; reflexivity. Qed.

Lemma summary_category t S E now c :
  exists cs,
    Dict.get (value c) (categories (get_spending_summary t S E now)) = Some cs
    /\ cs_budget_status cs = summary_budget_status t c now.
Proof.
  unfold get_spending_summary. cbv beta zeta. unfold categories.
  match goal with
  | |- context [fold_left (fun cats category => Dict.set _ (@?F category) cats)] =>
      rewrite (categories_loop_get F c)
  end.
  eexists. split; reflexivity.
Qed.

Lemma In_values_keyed t b :
  budgets_well_keyed t ->
  In b (Dict.values (budgets t)) ->
  Dict.get (Budget.id b) (budgets t) = Some b.
Proof.
  intros [Hnd Hk] Hin. unfold Dict.values in Hin.
  apply in_map_iff in Hin. destruct Hin as ([k b'] & Hb & Hin).
  simpl in Hb. subst b'.
  rewrite Forall_forall in Hk. pose proof (Hk _ Hin) as Hkb. simpl in Hkb.
  subst k. now apply In_get_Some.
Qed.

(** the status [get_budget_status] computes from a stored budget [b] *)
Lemma status_of_stored_budget t b now :
  budgets_well_keyed t ->
  In b (Dict.values (budgets t)) ->
  exists st,
    get_budget_status t (Budget.category b) (Budget.period b) now = Some st
    /\ budget_amount st = Budget.amount b
    /\ status_period st = Budget.period b
    /\ spent st
       = get_total_spent_by_period t (Budget.category b) (Budget.period b) now.
Proof.
  intros Hwk Hin. unfold get_budget_status.
  change (Budget.make_id (Budget.category b) (Budget.period b))
    with (Budget.id b).
  rewrite (In_values_keyed _ _ Hwk Hin).
  eexists. repeat split.
Qed.

(** C4. In a spending summary, the budget status reported for a category
    is: none when the category has no budget; the status of its monthly
    budget when it has one; otherwise the status of the first budget of
    that category in the stored order of the budget set.  "The status of
    budget [b]" is the result of [get_budget_status] for [b]'s period,
    which carries [b]'s amount and period and the spending of [b]'s own
    period window. *)
Theorem summary_prefers_monthly :
  forall (t : ExpenseTracker) (S E : option string) (now : datetime)
         (c : ExpenseCategory),
    budgets_well_keyed t ->
    let matching :=
      filter (fun b => category_eqb (Budget.category b) c)
        (Dict.values (budgets t)) in
    let reports (cs : CategorySummary) (b : Budget.t) :=
      cs_budget_status cs = get_budget_status t c (Budget.period b) now
      /\ exists st,
           cs_budget_status cs = Some st
           /\ budget_amount st = Budget.amount b
           /\ status_period st = Budget.period b
           /\ spent st = get_total_spent_by_period t c (Budget.period b) now
    in
    exists cs,
      Dict.get (value c) (categories (get_spending_summary t S E now))
      = Some cs
      /\ (matching = [] -> cs_budget_status cs = None)
      /\ (forall b, In b matching -> Budget.period b = "monthly"%string ->
                    reports cs b)
      /\ (forall b rest,
             matching = b :: rest ->
             (forall b', In b' matching ->
                         Budget.period b' <> "monthly"%string) ->
             reports cs b).
Proof.
  intros t S E now c Hwk matching reports.
  destruct (summary_category t S E now c) as (cs & Hget & Hcs).
  exists cs. split; [exact Hget|].
  unfold summary_budget_status in Hcs. fold matching in Hcs.
  assert (Hrep : forall b, In b matching ->
                   cs_budget_status cs
                   = get_budget_status t c (Budget.period b) now ->
                   reports cs b).
  { intros b Hin Heq. split; [exact Heq|].
    apply filter_In in Hin. destruct Hin as [Hin Hc].
    destruct (category_eqb_spec (Budget.category b) c) as [<-|];
      [|discriminate].
    destruct (status_of_stored_budget t b now Hwk Hin) as (st & H1 & H2).
    exists st. split; [congruence|exact H2]. }
  split; [|split].
  - intros Hm. now rewrite Hm in Hcs.
  - intros b Hin Hp. apply Hrep; [exact Hin|].
    destruct matching as [|b0 rest] eqn:Em; [contradiction|].
    rewrite Hcs. unfold preferred_budget.
    destruct (find _ (b0 :: rest)) as [b'|] eqn:Ef.
    + apply find_some in Ef. destruct Ef as [_ Ep].
      apply String.eqb_eq in Ep. congruence.
    + exfalso. pose proof (find_none _ _ Ef b Hin) as Hn. simpl in Hn.
      rewrite Hp in Hn. discriminate.
  - intros b rest Hm Hnone. apply Hrep; [rewrite Hm; now left|].
    rewrite Hcs, Hm. unfold preferred_budget.
    destruct (find _ (b :: rest)) as [b'|] eqn:Ef; [|reflexivity].
    apply find_some in Ef. destruct Ef as [Hin' Ep].
    apply String.eqb_eq in Ep. exfalso.
    apply (Hnone b'); [rewrite Hm; exact Hin'|exact Ep].
Qed.

Lemma summary_prefers_monthly_witness :
  let weekly := Budget.mk FOOD 30 "weekly" in
  let monthly := Budget.mk FOOD 100 "monthly" in
  let daily := Budget.mk BILLS 5 "daily" in
  let t :=
    mk_tracker "ann" []
      [("budget_Food_weekly"%string, weekly);
       ("budget_Bills_daily"%string, daily);
       ("budget_Food_monthly"%string, monthly)]
      NoFile in
  let now := mk_datetime 2024 1 20 9 0 0 in
  (exists cs,
      Dict.get "Food" (categories (get_spending_summary t None None now))
      = Some cs
      /\ cs_budget_status cs = get_budget_status t FOOD "monthly" now)
  /\ (exists cs,
         Dict.get "Bills" (categories (get_spending_summary t None None now))
         = Some cs
         /\ cs_budget_status cs = get_budget_status t BILLS "daily" now)
  /\ (exists cs,
         Dict.get "Other" (categories (get_spending_summary t None None now))
         = Some cs
         /\ cs_budget_status cs = None).
Proof.
  intros weekly monthly daily t now.
  assert (Hwk : budgets_well_keyed t).
  { split.
    - repeat constructor; simpl; intuition discriminate.
    - repeat constructor. }
  split; [|split].
  - destruct (summary_prefers_monthly t None None now FOOD Hwk)
      as (cs & Hget & _ & Hm & _).
    exists cs. split; [exact Hget|].
    apply (Hm monthly); [simpl; auto|reflexivity].
  - destruct (summary_prefers_monthly t None None now BILLS Hwk)
      as (cs & Hget & _ & _ & Hf).
    exists cs. split; [exact Hget|].
    apply (Hf daily []); [reflexivity|].
    intros b' [<-|[]]. discriminate.
  - destruct (summary_prefers_monthly t None None now OTHER Hwk)
      as (cs & Hget & Hn & _).
    exists cs. split; [exact Hget|]. apply Hn. reflexivity.
Defined.

(** ** C6: saving then loading *)

Lemma category_of_value_value c : category_of_value (value c) = Some c.
Proof. destruct c; reflexivity. Qed.

Lemma expense_from_dict_reloaded e now token :
  Expense.from_dict (Expense.to_dict e) now token = Ok (reloaded now e).
Proof.
  destruct e as [a c desc d i].
  unfold Expense.from_dict, Expense.to_dict, as_category, reloaded. simpl.
  rewrite category_of_value_value. simpl.
  destruct (String.eqb d ""); reflexivity.
Qed.

Lemma reloaded_nonempty now e :
  Expense.date e <> EmptyString -> reloaded now e = e.
Proof.
  destruct e as [a c desc d i]. unfold reloaded. simpl. intros Hd.
  destruct (String.eqb_spec d ""); [contradiction|reflexivity].
Qed.

Lemma budget_from_dict_to_dict b :
  Budget.from_dict (Budget.to_dict b) = Ok b.
Proof.
  destruct b as [c a p].
  unfold Budget.from_dict, Budget.to_dict, as_category. simpl.
  now rewrite category_of_value_value.
Qed.

Lemma mapM_map_Ok {A B} (f : A -> json) (g : json -> result B) (h : A -> B)
    (l : list A) :
  Forall (fun a => g (f a) = Ok (h a)) l ->
  mapM g (map f l) = Ok (map h l).
Proof.
  induction 1 as [|a l Ha _ IH]; simpl; [reflexivity|].
  now rewrite Ha, IH.
Qed.

Lemma of_items_fresh {V} (kvs d : Dict.t V) :
  NoDup (Dict.keys kvs) ->
  (forall k, In k (Dict.keys kvs) -> ~ In k (Dict.keys d)) ->
  fold_left (fun d kv => Dict.set (fst kv) (snd kv) d) kvs d = d ++ kvs.
Proof.
  revert d. induction kvs as [|[k v] kvs IH]; intros d Hnd Hd; simpl.
  - now rewrite app_nil_r.
  - inversion Hnd as [|? ? Hk Hnd']; subst.
    rewrite set_absent by (apply not_In_get_None, Hd; now left).
    rewrite IH; [now rewrite <- app_assoc|exact Hnd'|].
    intros k' Hk' Hin. unfold Dict.keys in Hin.
    rewrite map_app in Hin. apply in_app_or in Hin.
    destruct Hin as [Hin|[<-|[]]].
    + apply (Hd k'); [now right|exact Hin].
    + now apply Hk.
Qed.

Lemma of_items_id {V} (d : Dict.t V) :
  NoDup (Dict.keys d) -> Dict.of_items d = d.
Proof.
  intros Hnd. unfold Dict.of_items.
  now rewrite of_items_fresh by (auto; intros k _ []).
Qed.

Lemma rekey_budgets (bs : Dict.t Budget.t) :
  Forall (fun kb => fst kb = Budget.id (snd kb)) bs ->
  map (fun b => (Budget.id b, b)) (Dict.values bs) = bs.
Proof.
  induction 1 as [|[k b] bs Hk _ IH]; simpl in *; [reflexivity|].
  now rewrite IH, Hk.
Qed.

(** C6, on the input that refutes it.  [update_expense] accepts the empty
    string as the new date of an expense; the constructor that
    [Expense.from_dict] calls puts today's date in place of an empty one,
    so the record loaded from the saved file differs from the saved
    one. *)
Lemma empty_date_is_not_restored :
  let now := mk_datetime 2024 1 15 9 0 0 in
  let later := mk_datetime 2024 3 1 8 30 0 in
  let t0 := mk_tracker "ann" [] Dict.empty NoFile in
  exists t1 t2 t',
    add_expense t0 50 FOOD "lunch" None now "0a1b2c3d4e5f6071"
    = ((true, ExpenseAdded "2024-01-15_0a1b2c3d4e5f6071"), t1)
    /\ update_expense t1 "2024-01-15_0a1b2c3d4e5f6071" None None None
         (Some ""%string) now
       = ((true, ExpenseUpdated), t2)
    /\ init "ann" (data_file (save_data t2 now)) later "ff" = Ok t'
    /\ map Expense.date (expenses t2) = [""%string]
    /\ map Expense.date (expenses t') = ["2024-03-01"%string]
    /\ expenses t' <> expenses t2.
Proof.
  intros now later t0. eexists. eexists. eexists.
  split; [reflexivity|]. split; [reflexivity|]. split; [reflexivity|].
  split; [reflexivity|]. split; [reflexivity|].
  simpl. intros H. discriminate H.
Qed.

(** C6, amended.  Saving a tracker whose budgets are keyed by their ids,
    then constructing a tracker from the stored file, at any later time,
    loads without error the same budget set (category, amount, period,
    under the same keys in the same order) and the same expense records
    in the same order (id, amount, category, description, date), except
    that an expense whose date is the empty string is loaded with the
    date of the day of loading.  So the ledger is the same when no date is
    empty. *)
Theorem save_then_load :
  forall (t : ExpenseTracker) (now now' : datetime) (token : string),
    budgets_well_keyed t ->
    exists t',
      init (username t) (data_file (save_data t now)) now' token = Ok t'
      /\ username t' = username t
      /\ expenses t' = map (reloaded now') (expenses t)
      /\ map Expense.id (expenses t') = map Expense.id (expenses t)
      /\ map Expense.amount (expenses t') = map Expense.amount (expenses t)
      /\ map Expense.category (expenses t')
         = map Expense.category (expenses t)
      /\ map Expense.description (expenses t')
         = map Expense.description (expenses t)
      /\ budgets t' = budgets t
      /\ (dates_nonempty t -> expenses t' = expenses t).
Proof.
  intros t now now' token [Hnd Hk].
  unfold init, load_data, save_data. cbn [data_file username].
  unfold load_body. cbn [get_list Dict.get String.eqb Ascii.eqb Bool.eqb bind].
  rewrite (mapM_map_Ok Expense.to_dict _ (reloaded now')).
  2:{ apply Forall_forall. intros e _. apply expense_from_dict_reloaded. }
  cbn [bind].
  rewrite (mapM_map_Ok Budget.to_dict _ (fun b => (Budget.id b, b))).
  2:{ apply Forall_forall. intros b _.
      rewrite budget_from_dict_to_dict. reflexivity. }
  cbn [bind]. rewrite rekey_budgets, of_items_id by assumption.
  eexists. split; [reflexivity|]. cbn [username expenses budgets].
  split; [reflexivity|]. split; [reflexivity|].
  rewrite !map_map. cbn [reloaded Expense.id Expense.amount Expense.category
    Expense.description].
  repeat (split; [reflexivity|]).
  intros Hd. rewrite <- (map_id (expenses t)) at 2.
  apply map_ext_in. intros e He. apply reloaded_nonempty.
  unfold dates_nonempty in Hd. rewrite Forall_forall in Hd. now apply Hd.
Qed.

Lemma save_then_load_witness :
  let t :=
    mk_tracker "ann"
      [Expense.mk 50 FOOD "lunch" "2024-01-15" "2024-01-15_0a";
       Expense.mk (7 # 2) BILLS "stamp" "" "2024-01-16_0b"]
      [("budget_Food_weekly"%string, Budget.mk FOOD 30 "weekly");
       ("budget_Food_monthly"%string, Budget.mk FOOD 100 "monthly")]
      NoFile in
  let now := mk_datetime 2024 1 20 9 0 0 in
  let now' := mk_datetime 2024 3 1 8 30 0 in
  exists t',
    init "ann" (data_file (save_data t now)) now' "ff" = Ok t'
    /\ expenses t'
       = [Expense.mk 50 FOOD "lunch" "2024-01-15" "2024-01-15_0a";
          Expense.mk (7 # 2) BILLS "stamp" "2024-03-01" "2024-01-16_0b"]
    /\ budgets t' = budgets t.
Proof.
  intros t now now'.
  destruct (save_then_load t now now' "ff"%string)
    as (t' & H1 & _ & H2 & _ & _ & _ & _ & H3 & _).
  - split.
    + repeat constructor; simpl; intuition discriminate.
    + repeat constructor.
  - exists t'. split; [exact H1|]. split; [exact H2|exact H3].
Defined.

(** ** C10: listing sorts a copy *)

Section SortingFacts.
Context {A K : Type} (leb : K -> K -> bool) (key : A -> K).

Lemma insert_sorted_perm x l :
  Permutation (x :: l) (insert_sorted leb key x l).
Proof.
  induction l as [|y l IH]; simpl; [reflexivity|].
  destruct (leb (key x) (key y)); [reflexivity|].
  rewrite perm_swap. now apply perm_skip.
Qed.

Lemma sort_ascending_perm l : Permutation l (sort_ascending leb key l).
Proof.
  induction l as [|x l IH]; simpl; [constructor|].
  rewrite <- insert_sorted_perm. now apply perm_skip.
Qed.

Lemma sorted_by_perm reverse l :
  Permutation l (sorted_by leb key reverse l).
Proof.
  unfold sorted_by. destruct reverse; [|apply sort_ascending_perm].
  rewrite <- Permutation_rev, <- sort_ascending_perm.
  apply Permutation_rev.
Qed.
End SortingFacts.

Lemma deref_assign_same r x h :
  (r < List.length h)%nat -> deref (assign r x h) r = Some x.
Proof.
  revert r. induction h as [|y h IH]; intros [|r]; simpl; intros H;
    try lia; [reflexivity|]. apply IH. lia.
Qed.

Lemma deref_assign_other r r0 x h :
  r0 <> r -> deref (assign r x h) r0 = deref h r0.
Proof.
  revert r r0. induction h as [|y h IH]; intros [|r] [|r0] H; simpl;
    try reflexivity; try congruence.
  apply IH. congruence.
Qed.

Lemma deref_alloc_new l h : deref (h ++ [l]) (List.length h) = Some l.
Proof.
  unfold deref. rewrite nth_error_app2 by lia. now rewrite Nat.sub_diag.
Qed.

Lemma deref_alloc_old l h r0 :
  r0 <> List.length h -> deref (h ++ [l]) r0 = deref h r0.
Proof.
  intros H. unfold deref.
  destruct (Nat.lt_ge_cases r0 (List.length h)) as [Hlt|Hge].
  - now apply nth_error_app1.
  - rewrite (proj2 (nth_error_None h r0)) by exact Hge.
    apply nth_error_None. rewrite length_app. simpl. lia.
Qed.

Lemma list_sort_spec {K} (leb : K -> K -> bool) key reverse r h l :
  deref h r = Some l ->
  deref (list_sort leb key reverse r h) r
  = Some (sorted_by leb key reverse l)
  /\ forall r0, r0 <> r ->
                deref (list_sort leb key reverse r h) r0 = deref h r0.
Proof.
  intros H. unfold list_sort. rewrite H. split.
  - apply deref_assign_same. apply nth_error_Some. unfold deref in H.
    congruence.
  - intros r0 Hr0. now apply deref_assign_other.
Qed.

(** C10. When [self.expenses] refers to a list object holding [l],
    [get_all_expenses] returns, for every sort key and direction, a
    reference to a new list object; the object [self.expenses] refers to
    still holds [l], as does every other list object that existed; the
    new object holds a rearrangement of [l]; and for a sort key other
    than "date", "amount" and "category" it holds [l] itself, in the
    original order. *)
Theorem get_all_expenses_sorts_a_copy :
  forall (h : store) (self_expenses : ref) (l : list Expense.t)
         (sort_by : string) (reverse : bool),
    deref h self_expenses = Some l ->
    exists r h',
      get_all_expenses self_expenses sort_by reverse h = Some (r, h')
      /\ r <> self_expenses
      /\ deref h' self_expenses = Some l
      /\ (forall r0, r0 <> r -> deref h' r0 = deref h r0)
      /\ (exists l', deref h' r = Some l' /\ Permutation l l')
      /\ (sort_by <> "date"%string -> sort_by <> "amount"%string ->
          sort_by <> "category"%string -> deref h' r = Some l).
Proof.
  intros h self l sort_by reverse Hself.
  unfold get_all_expenses, list_copy, alloc. rewrite Hself.
  set (r := List.length h). set (h1 := h ++ [l]).
  assert (Hr : r <> self).
  { intros <-. unfold deref in Hself.
    assert (nth_error h r <> None) by congruence.
    apply nth_error_Some in H. subst r. lia. }
  assert (Hnew : deref h1 r = Some l) by apply deref_alloc_new.
  assert (Hold : forall r0, r0 <> r -> deref h1 r0 = deref h r0)
    by (intros r0 H; now apply deref_alloc_old).
  assert (Hgen : forall h2 l2,
             deref h2 r = Some l2 ->
             (forall r0, r0 <> r -> deref h2 r0 = deref h1 r0) ->
             Permutation l l2 ->
             (sort_by <> "date"%string -> sort_by <> "amount"%string ->
              sort_by <> "category"%string -> l2 = l) ->
             exists r' h',
               Some (r, h2) = Some (r', h')
               /\ r' <> self
               /\ deref h' self = Some l
               /\ (forall r0, r0 <> r' -> deref h' r0 = deref h r0)
               /\ (exists l', deref h' r' = Some l' /\ Permutation l l')
               /\ (sort_by <> "date"%string -> sort_by <> "amount"%string ->
                   sort_by <> "category"%string -> deref h' r' = Some l)).
  { intros h2 l2 H2 Hframe Hperm Hsame. exists r, h2.
    split; [reflexivity|]. split; [exact Hr|].
    split; [rewrite Hframe, Hold by congruence; exact Hself|].
    split; [intros r0 H0; now rewrite Hframe, Hold|].
    split; [exists l2; now split|].
    intros Hd Ha Hc. rewrite H2. f_equal. now apply Hsame. }
  destruct (String.eqb_spec sort_by "date") as [Hd|Hd].
  - destruct (list_sort_spec String.leb Expense.date reverse r h1 l Hnew)
      as [H2 Hf].
    apply (Hgen _ _ H2 Hf); [apply sorted_by_perm|congruence].
  - destruct (String.eqb_spec sort_by "amount") as [Ha|Ha].
    + destruct (list_sort_spec Qle_bool Expense.amount reverse r h1 l Hnew)
        as [H2 Hf].
      apply (Hgen _ _ H2 Hf); [apply sorted_by_perm|congruence].
    + destruct (String.eqb_spec sort_by "category") as [Hc|Hc].
      * destruct (list_sort_spec String.leb
                    (fun x => value (Expense.category x)) reverse r h1 l Hnew)
          as [H2 Hf].
        apply (Hgen _ _ H2 Hf); [apply sorted_by_perm|congruence].
      * apply (Hgen h1 l Hnew); auto.
Qed.

Lemma get_all_expenses_sorts_a_copy_witness :
  let e1 := Expense.mk 50 FOOD "lunch" "2024-01-15" "2024-01-15_0a" in
  let e2 := Expense.mk 30 BILLS "power" "2024-01-16" "2024-01-16_0b" in
  let h : store := [[e1; e2]] in
  exists r h',
    get_all_expenses 0%nat "price" true h = Some (r, h')
    /\ deref h' 0%nat = Some [e1; e2]
    /\ deref h' r = Some [e1; e2].
Proof.
  intros e1 e2 h.
  destruct (get_all_expenses_sorts_a_copy h 0%nat [e1; e2] "price"%string
              true eq_refl)
    as (r & h' & H1 & _ & H3 & _ & _ & H6).
  exists r, h'. repeat split; [exact H1|exact H3|].
  apply H6; discriminate.
Defined.

Local Open Scope Z_scope.

(** ** The calendar *)

Ltac divlia := Z.div_mod_to_equations; lia.

Lemma Z_interval_In lo hi x :
  lo <= x <= hi ->
  In x (map (fun k => lo + Z.of_nat k) (seq 0 (Z.to_nat (hi - lo + 1)))).
Proof.
  intros H. apply in_map_iff. exists (Z.to_nat (x - lo)).
  split; [lia|]. apply in_seq. lia.
Qed.

(** case analysis on an integer known to lie between two literals *)
Ltac enumerate x lo hi :=
  let H := fresh "Hcase" in
  assert (H : lo <= x <= hi) by lia;
  apply Z_interval_In in H; cbv in H;
  repeat (destruct H as [H|H]; [subst x|]); [..|destruct H].

Lemma days_before_year_cycles a b c e :
  0 <= a -> 0 <= b <= 3 -> 0 <= c <= 24 -> 0 <= e <= 3 ->
  days_before_year (400 * a + 100 * b + 4 * c + e + 1)
  = 146097 * a + 36524 * b + 1461 * c + 365 * e.
Proof.
  intros. unfold days_before_year. cbv zeta.
  replace (400 * a + 100 * b + 4 * c + e + 1 - 1)
    with (400 * a + 100 * b + 4 * c + e) by lia.
  divlia.
Qed.

Lemma days_before_year_succ y :
  days_before_year (y + 1)
  = days_before_year y + 365 + (if is_leap y then 1 else 0).
Proof.
  unfold days_before_year, is_leap. cbv zeta.
  replace (y + 1 - 1) with y by lia.
  destruct (Z.eqb_spec (y mod 4) 0), (Z.eqb_spec (y mod 100) 0),
    (Z.eqb_spec (y mod 400) 0); simpl; divlia.
Qed.

Lemma days_before_year_mono y1 y2 :
  y1 <= y2 -> days_before_year y1 <= days_before_year y2.
Proof. unfold days_before_year. cbv zeta. intros. divlia. Qed.

Lemma is_leap_cycles a b c e :
  0 <= a -> 0 <= b <= 3 -> 0 <= c <= 24 -> 0 <= e <= 3 ->
  is_leap (400 * a + 100 * b + 4 * c + e + 1)
  = (e =? 3) && (negb (c =? 24) || (b =? 3)).
Proof.
  intros. unfold is_leap.
  destruct (Z.eqb_spec e 3), (Z.eqb_spec c 24), (Z.eqb_spec b 3);
    destruct (Z.eqb_spec ((400 * a + 100 * b + 4 * c + e + 1) mod 4) 0);
    destruct (Z.eqb_spec ((400 * a + 100 * b + 4 * c + e + 1) mod 100) 0);
    destruct (Z.eqb_spec ((400 * a + 100 * b + 4 * c + e + 1) mod 400) 0);
    simpl; try reflexivity; exfalso; divlia.
Qed.

Lemma month_and_day_check (leap : bool) :
  forallb
    (fun k =>
       let n := Z.of_nat k in
       let '(m, d) := month_and_day leap n in
       (1 <=? m) && (m <=? 12) && (1 <=? d)
       && (d <=? (if (m =? 2) && leap then 29 else table DAYS_IN_MONTH m))
       && (table DAYS_BEFORE_MONTH m
           + (if (2 <? m) && leap then 1 else 0) + d =? n + 1))
    (seq 0 (if leap then 366 else 365)%nat)
  = true.
Proof. destruct leap; vm_compute; reflexivity. Qed.

Lemma month_and_day_spec (leap : bool) (n : Z) :
  0 <= n <= 364 + (if leap then 1 else 0) ->
  let '(m, d) := month_and_day leap n in
  1 <= m <= 12
  /\ 1 <= d <= (if (m =? 2) && leap then 29 else table DAYS_IN_MONTH m)
  /\ table DAYS_BEFORE_MONTH m + (if (2 <? m) && leap then 1 else 0) + d
     = n + 1.
Proof.
  intros Hn. pose proof (month_and_day_check leap) as H.
  rewrite forallb_forall in H. specialize (H (Z.to_nat n)).
  rewrite Z2Nat.id in H by lia. cbv zeta in H.
  destruct (month_and_day leap n) as [m d].
  assert (Hin : In (Z.to_nat n) (seq 0 (if leap then 366 else 365)%nat)).
  { apply in_seq. destruct leap; lia. }
  apply H in Hin. rewrite !andb_true_iff in Hin.
  destruct Hin as [[[[H1 H2] H3] H4] H5]. lia.
Qed.

Lemma ord2ymd_spec n :
  1 <= n ->
  let '(y, m, d) := ord2ymd n in
  1 <= y /\ 1 <= m <= 12 /\ 1 <= d <= days_in_month y m
  /\ ymd2ord y m d = n.
Proof.
  intros Hn. unfold ord2ymd, DI400Y, DI100Y, DI4Y. cbv zeta.
  set (n0 := n - 1).
  set (n400 := n0 / 146097). set (r1 := n0 mod 146097).
  set (n100 := r1 / 36524). set (r2 := r1 mod 36524).
  set (n4 := r2 / 1461). set (r3 := r2 mod 1461).
  set (n1 := r3 / 365). set (r4 := r3 mod 365).
  assert (H400 : n0 = 146097 * n400 + r1 /\ 0 <= r1 < 146097 /\ 0 <= n400)
    by (subst n400 r1 n0; divlia).
  assert (H100 : r1 = 36524 * n100 + r2 /\ 0 <= r2 < 36524 /\ 0 <= n100 <= 4)
    by (subst n100 r2; divlia).
  assert (H4 : r2 = 1461 * n4 + r3 /\ 0 <= r3 < 1461 /\ 0 <= n4 <= 24)
    by (subst n4 r3; divlia).
  assert (H1 : r3 = 365 * n1 + r4 /\ 0 <= r4 < 365 /\ 0 <= n1 <= 4)
    by (subst n1 r4; divlia).
  clearbody n400 r1 n100 r2 n4 r3 n1 r4.
  destruct ((n1 =? 4) || (n100 =? 4)) eqn:Especial.
  - (* the last day of a leap year *)
    apply orb_true_iff in Especial. rewrite !Z.eqb_eq in Especial.
    assert (Hleap : is_leap (n400 * 400 + 1 + n100 * 100 + n4 * 4 + n1 - 1)
                    = true).
    { unfold is_leap.
      destruct (Z.eqb_spec ((n400 * 400 + 1 + n100 * 100 + n4 * 4 + n1 - 1)
                              mod 4) 0);
        destruct (Z.eqb_spec ((n400 * 400 + 1 + n100 * 100 + n4 * 4 + n1 - 1)
                                mod 100) 0);
        destruct (Z.eqb_spec ((n400 * 400 + 1 + n100 * 100 + n4 * 4 + n1 - 1)
                                mod 400) 0);
        simpl; try reflexivity; exfalso; divlia. }
    assert (Hdim : forall y, days_in_month y 12 = 31) by reflexivity.
    assert (Hdbm : forall y, days_before_month y 12
                             = 334 + (if is_leap y then 1 else 0))
      by reflexivity.
    unfold ymd2ord. rewrite Hdim, Hdbm, Hleap.
    unfold days_before_year. cbv zeta.
    repeat split; try lia. divlia.
  - apply orb_false_iff in Especial. rewrite !Z.eqb_neq in Especial.
    replace (n400 * 400 + 1 + n100 * 100 + n4 * 4 + n1)
      with (400 * n400 + 100 * n100 + 4 * n4 + n1 + 1) by lia.
    rewrite <- (is_leap_cycles n400 n100 n4 n1) by lia.
    set (y := 400 * n400 + 100 * n100 + 4 * n4 + n1 + 1).
    pose proof (month_and_day_spec (is_leap y) r4) as Hmd.
    destruct (month_and_day (is_leap y) r4) as [m d].
    destruct Hmd as (Hm & Hd & Hsum); [destruct (is_leap y); lia|].
    pose proof (days_before_year_cycles n400 n100 n4 n1) as Hdby.
    fold y in Hdby.
    unfold ymd2ord, days_in_month, days_before_month.
    rewrite Hdby by lia.
    repeat split; try lia.
Qed.

Lemma valid_date_iff y m d :
  valid_date y m d = true
  <-> 1 <= y <= 9999 /\ 1 <= m <= 12 /\ 1 <= d <= days_in_month y m.
Proof.
  unfold valid_date, MINYEAR, MAXYEAR. rewrite !andb_true_iff, !Z.leb_le. lia.
Qed.

Lemma month_bounds y m :
  1 <= m <= 12 ->
  0 <= days_before_month y m
  /\ 28 <= days_in_month y m <= 31
  /\ days_before_month y m + days_in_month y m
     <= 365 + (if is_leap y then 1 else 0).
Proof.
  intros Hm. unfold days_before_month, days_in_month.
  enumerate m 1 12; destruct (is_leap y); vm_compute; intuition discriminate.
Qed.

Lemma month_step y m1 m2 :
  1 <= m1 -> m1 < m2 -> m2 <= 12 ->
  days_before_month y m1 + days_in_month y m1 <= days_before_month y m2.
Proof.
  intros H1 H12 H2. unfold days_before_month, days_in_month.
  enumerate m1 1 11; enumerate m2 2 12; try lia;
    destruct (is_leap y); vm_compute; discriminate.
Qed.

Lemma ymd2ord_bounds y m d :
  valid_date y m d = true -> 1 <= ymd2ord y m d <= 3652059.
Proof.
  rewrite valid_date_iff. intros (Hy & Hm & Hd).
  pose proof (month_bounds y m Hm) as (Hb0 & _ & Hb).
  pose proof (days_before_year_mono 1 y ltac:(lia)) as Hlo.
  pose proof (days_before_year_mono (y + 1) 10000 ltac:(lia)) as Hhi.
  rewrite days_before_year_succ in Hhi.
  change (days_before_year 1) with 0 in Hlo.
  change (days_before_year 10000) with 3652059 in Hhi.
  unfold ymd2ord. lia.
Qed.

Lemma ord2ymd_valid n :
  1 <= n <= 3652059 ->
  let '(y, m, d) := ord2ymd n in
  valid_date y m d = true /\ ymd2ord y m d = n.
Proof.
  intros Hn. pose proof (ord2ymd_spec n ltac:(lia)) as H.
  destruct (ord2ymd n) as [[y m] d]. destruct H as (Hy & Hm & Hd & Ho).
  split; [|exact Ho]. apply valid_date_iff. repeat split; try lia.
  destruct (Z.le_gt_cases y 9999) as [|Hbig]; [assumption|exfalso].
  pose proof (days_before_year_mono 10000 y ltac:(lia)) as Hmono.
  change (days_before_year 10000) with 3652059 in Hmono.
  pose proof (month_bounds y m Hm) as (Hb0 & _).
  unfold ymd2ord in Ho. lia.
Qed.

(** the ordinal grows with the date *)
Lemma ymd2ord_lt_year y1 m1 d1 y2 m2 d2 :
  valid_date y1 m1 d1 = true -> valid_date y2 m2 d2 = true ->
  y1 < y2 -> ymd2ord y1 m1 d1 < ymd2ord y2 m2 d2.
Proof.
  rewrite !valid_date_iff. intros (Hy1 & Hm1 & Hd1) (Hy2 & Hm2 & Hd2) Hlt.
  pose proof (month_bounds y1 m1 Hm1) as (_ & _ & Hb1).
  pose proof (month_bounds y2 m2 Hm2) as (Hb2 & _).
  pose proof (days_before_year_mono (y1 + 1) y2 ltac:(lia)) as Hmono.
  rewrite days_before_year_succ in Hmono.
  unfold ymd2ord. lia.
Qed.

Lemma ymd2ord_lt_month y m1 d1 m2 d2 :
  valid_date y m1 d1 = true -> valid_date y m2 d2 = true ->
  m1 < m2 -> ymd2ord y m1 d1 < ymd2ord y m2 d2.
Proof.
  rewrite !valid_date_iff. intros (Hy1 & Hm1 & Hd1) (Hy2 & Hm2 & Hd2) Hlt.
  pose proof (month_step y m1 m2 ltac:(lia) Hlt ltac:(lia)).
  unfold ymd2ord. lia.
Qed.

(** on dates, the comparison of datetimes is the comparison of ordinals *)
Lemma datetime_leb_ordinal a b :
  valid_date (year a) (month a) (day a) = true ->
  valid_date (year b) (month b) (day b) = true ->
  datetime_leb (midnight a) (midnight b) = (toordinal a <=? toordinal b).
Proof.
  intros Ha Hb. unfold datetime_leb, datetime_key, midnight, toordinal.
  cbn [year month day hour minute second lex_leb].
  destruct a as [y1 m1 d1 ? ? ?], b as [y2 m2 d2 ? ? ?].
  cbn [year month day] in *.
  pose proof (ymd2ord_lt_year _ _ _ _ _ _ Ha Hb) as H12.
  pose proof (ymd2ord_lt_year _ _ _ _ _ _ Hb Ha) as H21.
  assert (Hm12 : y1 = y2 -> m1 < m2 -> ymd2ord y1 m1 d1 < ymd2ord y2 m2 d2).
  { intros <-. now apply ymd2ord_lt_month. }
  assert (Hm21 : y1 = y2 -> m2 < m1 -> ymd2ord y2 m2 d2 < ymd2ord y1 m1 d1).
  { intros <-. now apply ymd2ord_lt_month. }
  assert (Hd : y1 = y2 -> m1 = m2 ->
               ymd2ord y1 m1 d1 - ymd2ord y2 m2 d2 = d1 - d2).
  { intros <- <-. unfold ymd2ord. lia. }
  change (0 <? 0) with false. change (0 =? 0) with true. cbn [orb andb].
  destruct (Z.ltb_spec y1 y2), (Z.eqb_spec y1 y2), (Z.ltb_spec m1 m2),
    (Z.eqb_spec m1 m2), (Z.ltb_spec d1 d2), (Z.eqb_spec d1 d2),
    (Z.leb_spec (ymd2ord y1 m1 d1) (ymd2ord y2 m2 d2));
    cbn [orb andb]; try reflexivity; exfalso; lia.
Qed.

(** ** Formatting then parsing a date *)

Lemma digit_value_digit_char k :
  0 <= k <= 9 -> digit_value (digit_char k) = Some k.
Proof. intros H. enumerate k 0 9; reflexivity. Qed.

Lemma parse_month_pad2 m rest :
  1 <= m <= 12 -> parse_month (pad2 m ++ String "-" rest) = Some (m, rest).
Proof. intros H. enumerate m 1 12; reflexivity. Qed.

Lemma parse_day_pad2 d : 1 <= d <= 31 -> parse_day (pad2 d) = Some d.
Proof. intros H. enumerate d 1 31; reflexivity. Qed.

Lemma strptime_strftime dt :
  valid_date (year dt) (month dt) (day dt) = true ->
  strptime_Ymd (strftime_Ymd dt) = Some (midnight dt).
Proof.
  intros Hv. pose proof Hv as Hv'.
  apply valid_date_iff in Hv'. destruct Hv' as (Hy & Hm & Hd).
  pose proof (month_bounds (year dt) (month dt) Hm) as (_ & Hdim & _).
  unfold strftime_Ymd, pad4. unfold pad2 at 1. cbn [append].
  unfold strptime_Ymd.
  rewrite !digit_value_digit_char by divlia.
  rewrite parse_month_pad2 by exact Hm.
  rewrite parse_day_pad2 by lia.
  replace (1000 * (year dt / 1000) + 100 * (year dt / 100 mod 10)
           + 10 * (year dt mod 100 / 10) + year dt mod 100 mod 10)
    with (year dt) by divlia.
  now rewrite Hv.
Qed.

(** a date that parses is a valid date at midnight *)
Lemma strptime_valid s d :
  strptime_Ymd s = Some d ->
  valid_date (year d) (month d) (day d) = true /\ midnight d = d.
Proof.
  unfold strptime_Ymd. intros H.
  repeat match type of H with
         | match ?x with _ => _ end = _ => destruct x eqn:?; try discriminate
         | (if ?x then _ else _) = _ => destruct x eqn:?; try discriminate
         end.
  injection H as <-. split; [assumption|reflexivity].
Qed.

Lemma valid_datetime_date now :
  valid_datetime now = true ->
  valid_date (year now) (month now) (day now) = true.
Proof. unfold valid_datetime. rewrite !andb_true_iff. tauto. Qed.

Lemma sub_days_spec now k :
  1 <= toordinal now - k <= 3652059 ->
  let dt := sub_days now k in
  valid_date (year dt) (month dt) (day dt) = true
  /\ toordinal dt = toordinal now - k.
Proof.
  intros Hk. unfold sub_days.
  pose proof (ord2ymd_valid _ Hk) as H.
  destruct (ord2ymd (toordinal now - k)) as [[y m] d]. exact H.
Qed.

Lemma dated_within_on_days a b e :
  valid_date (year a) (month a) (day a) = true ->
  valid_date (year b) (month b) (day b) = true ->
  dated_within (midnight a) (midnight b) e
  = on_days (toordinal a) (toordinal b) e.
Proof.
  intros Ha Hb. unfold dated_within, on_days, between.
  destruct (strptime_Ymd (Expense.date e)) as [d|] eqn:E; [|reflexivity].
  destruct (strptime_valid _ _ E) as [Hv Hmid].
  assert (H1 : datetime_leb (midnight a) d = (toordinal a <=? toordinal d)).
  { rewrite <- Hmid at 1. now apply datetime_leb_ordinal. }
  assert (H2 : datetime_leb d (midnight b) = (toordinal d <=? toordinal b)).
  { rewrite <- Hmid at 1. now apply datetime_leb_ordinal. }
  now rewrite H1, H2.
Qed.

(** the total [get_total_spent] computes between two formatted dates *)
Lemma total_between_formatted t c start now :
  valid_date (year start) (month start) (day start) = true ->
  valid_date (year now) (month now) (day now) = true ->
  dates_well_formed t ->
  get_total_spent t (Some c) (Some (strftime_Ymd start))
    (Some (strftime_Ymd now))
  = py_sum
      (map Expense.amount
         (filter (fun e => category_eqb (Expense.category e) c
                           && on_days (toordinal start) (toordinal now) e)
            (expenses t))).
Proof.
  intros Hs Hn Hwf.
  rewrite (get_total_spent_both t c _ _ (midnight start) (midnight now))
    by (try apply strptime_strftime; assumption).
  f_equal. f_equal. apply filter_ext. intros e.
  now rewrite dated_within_on_days.
Qed.

(** ** C3: the window of a budget period *)

(** C3. For every current date and time [now], on a ledger whose dates
    parse, the spending of a category over a period is the sum of the
    expenses of that category dated on a day between the start of the
    window and today, both included, where the window starts: today for
    "daily"; for "weekly", on the Monday that is on or before today and
    less than seven days back; for "monthly", on day 1 of the month and
    year of today.  This spending is the [spent] of the budget status. *)
Theorem period_window_resolution :
  forall (t : ExpenseTracker) (category : ExpenseCategory) (now : datetime),
    valid_datetime now = true ->
    dates_well_formed t ->
    let today := toordinal now in
    let monday := sub_days now (weekday now) in
    let first := replace_day now 1 in
    let spent_on lo hi :=
      py_sum
        (map Expense.amount
           (filter (fun e => category_eqb (Expense.category e) category
                             && on_days lo hi e)
              (expenses t))) in
    get_total_spent_by_period t category "daily" now = spent_on today today
    /\ get_total_spent_by_period t category "weekly" now
       = spent_on (toordinal monday) today
    /\ weekday monday = 0
    /\ toordinal monday <= today < toordinal monday + 7
    /\ get_total_spent_by_period t category "monthly" now
       = spent_on (toordinal first) today
    /\ year first = year now /\ month first = month now /\ day first = 1
    /\ toordinal first <= today
    /\ (forall period st,
           get_budget_status t category period now = Some st ->
           spent st = get_total_spent_by_period t category period now).
Proof.
  intros t category now Hnow Hwf today monday first spent_on.
  apply valid_datetime_date in Hnow.
  pose proof (ymd2ord_bounds _ _ _ Hnow) as Hord. fold (toordinal now) in Hord.
  fold today in Hord.
  assert (Hwd : 0 <= weekday now <= 6 /\ 1 <= today - weekday now).
  { unfold weekday. fold today. divlia. }
  destruct (sub_days_spec now (weekday now)) as [Hmv Hmo];
    [fold today; lia|].
  fold monday in Hmv, Hmo. fold today in Hmo.
  assert (Hfv : valid_date (year first) (month first) (day first) = true).
  { apply valid_date_iff in Hnow. destruct Hnow as (Hy & Hm & Hd).
    pose proof (month_bounds (year now) (month now) Hm) as (_ & Hdim & _).
    apply valid_date_iff. subst first. cbn [replace_day year month day]. lia. }
  split; [|split; [|split; [|split; [|split]]]].
  - change (get_total_spent_by_period t category "daily" now)
      with (get_total_spent t (Some category) (Some (strftime_Ymd now))
              (Some (strftime_Ymd now))).
    now apply total_between_formatted.
  - change (get_total_spent_by_period t category "weekly" now)
      with (get_total_spent t (Some category) (Some (strftime_Ymd monday))
              (Some (strftime_Ymd now))).
    now apply total_between_formatted.
  - unfold weekday. rewrite Hmo. unfold weekday in Hwd. fold today in Hwd.
    unfold weekday. fold today. divlia.
  - lia.
  - change (get_total_spent_by_period t category "monthly" now)
      with (get_total_spent t (Some category) (Some (strftime_Ymd first))
              (Some (strftime_Ymd now))).
    now apply total_between_formatted.
  - split; [reflexivity|]. split; [reflexivity|]. split; [reflexivity|].
    split.
    + apply valid_date_iff in Hnow. subst first today.
      unfold toordinal, ymd2ord. cbn [replace_day year month day]. lia.
    + intros period st. unfold get_budget_status.
      destruct (Dict.get _ (budgets t)); [|discriminate].
      now intros [= <-].
Qed.

Lemma period_window_resolution_witness :
  let t :=
    mk_tracker "ann"
      [Expense.mk 8 FOOD "brunch" "2024-01-14" "2024-01-14_0a";
       Expense.mk 50 FOOD "lunch" "2024-01-15" "2024-01-15_0b";
       Expense.mk 30 BILLS "power" "2024-01-16" "2024-01-16_0c";
       Expense.mk 10 FOOD "snack" "2024-01-20" "2024-01-20_0d"]
      [("budget_Food_weekly"%string, Budget.mk FOOD 100 "weekly")]
      NoFile in
  let now := mk_datetime 2024 1 20 10 30 5 in
  (get_total_spent_by_period t FOOD "weekly" now == 60)%Q
  /\ weekday (sub_days now (weekday now)) = 0
  /\ strftime_Ymd (sub_days now (weekday now)) = "2024-01-15"%string
  /\ (get_total_spent_by_period t FOOD "monthly" now == 68)%Q
  /\ (get_total_spent_by_period t FOOD "daily" now == 10)%Q
  /\ exists st,
       get_budget_status t FOOD "weekly" now = Some st
       /\ (spent st == 60)%Q.
Proof.
  intros t now.
  assert (Hwf : dates_well_formed t) by (repeat constructor; discriminate).
  destruct (period_window_resolution t FOOD now eq_refl Hwf)
    as (Hd & Hw & Hmon & _ & Hm & _ & _ & _ & _ & Hst).
  split; [rewrite Hw; reflexivity|].
  split; [exact Hmon|].
  split; [reflexivity|].
  split; [rewrite Hm; reflexivity|].
  split; [rewrite Hd; reflexivity|].
  eexists. split; [reflexivity|].
  rewrite (Hst "weekly"%string _ eq_refl), Hw. reflexivity.
Defined.

(** ** The invariants used above are maintained by the operations *)

Local Open Scope Q_scope.

Lemma add_expense_invariant t amount category description date now token :
  ledger_invariant t ->
  ledger_invariant
    (snd (add_expense t amount category description date now token)).
Proof.
  intros H. unfold add_expense.
  destruct (Qle_bool amount 0) eqn:E; [exact H|].
  apply Qle_bool_false in E. unfold ledger_invariant. simpl.
  apply Forall_app. split; [exact H|]. repeat constructor. exact E.
Qed.

Lemma delete_expense_invariant t expense_id now :
  ledger_invariant t -> ledger_invariant (snd (delete_expense t expense_id now)).
Proof.
  intros H. unfold delete_expense. cbv zeta.
  assert (Hf : ledger_invariant
                 (with_expenses t
                    (filter (fun exp => negb (Expense.id exp =? expense_id)%string)
                       (expenses t))))
    by (apply Forall_filter; exact H).
  destruct (_ <? _)%nat; exact Hf.
Qed.

Lemma update_loop_invariant es i a c d dt es' :
  Forall (fun e => 0 < Expense.amount e) es ->
  update_loop es i a c d dt = Some (inr es') ->
  Forall (fun e => 0 < Expense.amount e) es'.
Proof.
  intros H. revert es'.
  induction H as [|e es He Hes IH]; simpl; intros es' Hu; [discriminate|].
  destruct (String.eqb (Expense.id e) i).
  - destruct a as [q|].
    + destruct (Qle_bool q 0) eqn:E; [discriminate|].
      injection Hu as <-. constructor; [|exact Hes].
      simpl. now apply Qle_bool_false.
    + injection Hu as <-. constructor; assumption.
  - destruct (update_loop es i a c d dt) as [[m|l]|]; try discriminate.
    injection Hu as <-. constructor; [exact He|]. now apply IH.
Qed.

Lemma update_expense_invariant t i a c d dt now :
  ledger_invariant t -> ledger_invariant (snd (update_expense t i a c d dt now)).
Proof.
  intros H. unfold update_expense.
  destruct (update_loop (expenses t) i a c d dt) as [[m|l]|] eqn:E;
    try exact H.
  unfold ledger_invariant. simpl. exact (update_loop_invariant _ _ _ _ _ _ _ H E).
Qed.

Lemma set_preserves_keying (k : string) (b : Budget.t) (d : Dict.t Budget.t) :
  k = Budget.id b ->
  NoDup (Dict.keys d)
  /\ Forall (fun kb => fst kb = Budget.id (snd kb)) d ->
  NoDup (Dict.keys (Dict.set k b d))
  /\ Forall (fun kb => fst kb = Budget.id (snd kb)) (Dict.set k b d).
Proof.
  intros Hk [Hnd Hf]. split.
  - destruct (Dict.get k d) eqn:E.
    + rewrite keys_set_present by congruence. exact Hnd.
    + rewrite (set_absent _ _ _ E). unfold Dict.keys. rewrite map_app.
      simpl. apply (Permutation_NoDup (Permutation_cons_append _ _)).
      constructor; [now apply get_None_not_In|exact Hnd].
  - clear Hnd. induction Hf as [|[k' b'] d Hkb Hd IH]; simpl.
    + repeat constructor. exact Hk.
    + destruct (String.eqb_spec k' k) as [->|].
      * constructor; [exact Hk|assumption].
      * constructor; assumption.
Qed.

Lemma set_budget_well_keyed t category amount period now :
  budgets_well_keyed t ->
  budgets_well_keyed (snd (set_budget t category amount period now)).
Proof.
  intros H. unfold set_budget. destruct (Qltb amount 0); [exact H|].
  unfold budgets_well_keyed. simpl. now apply set_preserves_keying.
Qed.

Lemma new_tracker_invariants username f :
  let t := mk_tracker username [] Dict.empty f in
  ledger_invariant t /\ dates_nonempty t /\ dates_well_formed t
  /\ budgets_well_keyed t.
Proof. repeat split; constructor. Qed.


(* ================================================================== *)
(** * Further properties of the code *)
(* ================================================================== *)

Local Open Scope Q_scope.

(** ** Deleting from a dictionary *)

Section DictDeletion.
Context {V : Type}.
Implicit Types (d : Dict.t V) (k : string).

Lemma filter_all {A} (p : A -> bool) (l : list A) :
  (forall x, In x l -> p x = true) -> filter p l = l.
Proof.
  induction l as [|x l IH]; simpl; intros H; [reflexivity|].
  rewrite (H x) by now left. f_equal. apply IH. intros y Hy. apply H.
  now right.
Qed.

Lemma In_keys_filter (p : string * V -> bool) d k :
  In k (Dict.keys (filter p d)) -> In k (Dict.keys d).
Proof.
  unfold Dict.keys. rewrite !in_map_iff. intros (kv & Hk & Hin).
  apply filter_In in Hin. exists kv. tauto.
Qed.

Lemma NoDup_keys_filter (p : string * V -> bool) d :
  NoDup (Dict.keys d) -> NoDup (Dict.keys (filter p d)).
Proof.
  induction d as [|[k v] d IH]; simpl; intros H; [constructor|].
  inversion H as [|? ? Hk Hd]; subst.
  destruct (p (k, v)); simpl; [|now apply IH].
  constructor; [|now apply IH]. intros Hin. apply Hk.
  exact (In_keys_filter _ _ _ Hin).
Qed.

Lemma del_filter k d :
  NoDup (Dict.keys d) ->
  Dict.del k d = filter (fun kv => negb (String.eqb (fst kv) k)) d.
Proof.
  induction d as [|[k' v] d IH]; simpl; intros H; [reflexivity|].
  inversion H as [|? ? Hk Hd]; subst.
  destruct (String.eqb_spec k' k) as [->|Hne]; simpl.
  - symmetry. apply filter_all. intros [k1 v1] Hin. simpl.
    destruct (String.eqb_spec k1 k) as [->|]; [|reflexivity].
    exfalso. apply Hk. change k with (fst (k, v1)). now apply in_map.
  - f_equal. now apply IH.
Qed.

Lemma fold_del_filter ids d :
  NoDup (Dict.keys d) ->
  fold_left (fun d k => Dict.del k d) ids d
  = filter (fun kv => negb (existsb (String.eqb (fst kv)) ids)) d.
Proof.
  revert d. induction ids as [|k ids IH]; intros d H; simpl.
  - symmetry. now apply filter_all.
  - rewrite del_filter by exact H.
    rewrite IH by (apply NoDup_keys_filter; exact H).
    rewrite filter_both. apply filter_ext. intros kv.
    now rewrite negb_orb.
Qed.

Lemma get_filter_drop (p : string * V -> bool) d k :
  (forall v, p (k, v) = false) -> Dict.get k (filter p d) = None.
Proof.
  intros Hp. apply not_In_get_None. unfold Dict.keys.
  rewrite in_map_iff. intros ([k' v] & Hk & Hin). simpl in Hk. subst k'.
  apply filter_In in Hin. rewrite Hp in Hin. destruct Hin. discriminate.
Qed.

Lemma get_filter_keep (p : string * V -> bool) d k :
  (forall v, p (k, v) = true) -> Dict.get k (filter p d) = Dict.get k d.
Proof.
  intros Hp. induction d as [|[k' v] d IH]; simpl; [reflexivity|].
  destruct (p (k', v)) eqn:E; simpl.
  - now rewrite IH.
  - destruct (String.eqb_spec k' k) as [->|]; [|exact IH].
    rewrite Hp in E. discriminate.
Qed.

Lemma mem_get k d : Dict.mem k d = true <-> Dict.get k d <> None.
Proof.
  unfold Dict.mem. destruct (Dict.get k d); split; congruence.
Qed.
End DictDeletion.

(** ** Budget ids *)

Lemma startswith_category (b : Budget.t) c :
  startswith (Budget.id b) ("budget_" ++ value c ++ "_")
  = category_eqb (Budget.category b) c.
Proof. destruct b as [c' a p]. destruct c, c'; reflexivity. Qed.

Lemma append_inv_head (a x y : string) :
  (a ++ x)%string = (a ++ y)%string -> x = y.
Proof.
  induction a as [|ch a IH]; simpl; intros H; [exact H|].
  injection H as H. now apply IH.
Qed.

Lemma make_id_inj c p c' p' :
  Budget.make_id c p = Budget.make_id c' p' -> c = c' /\ p = p'.
Proof.
  intros H.
  assert (Hc : c = c').
  { pose proof (startswith_category (Budget.mk c 0 p) c') as H1.
    pose proof (startswith_category (Budget.mk c' 0 p') c') as H2.
    unfold Budget.id in H1, H2.
    cbn [Budget.category Budget.period] in H1, H2. rewrite H in H1.
    rewrite H1 in H2.
    destruct (category_eqb_spec c c'); [assumption|].
    destruct (category_eqb_spec c' c'); congruence. }
  subst c'. split; [reflexivity|].
  unfold Budget.make_id in H.
  apply append_inv_head in H. apply append_inv_head in H.
  now apply append_inv_head in H.
Qed.

(** the keys of a well keyed budget set that start with the prefix of a
    category are the keys of the budgets of that category *)
Lemma prefix_ids_are_category t c kb :
  budgets_well_keyed t ->
  In kb (budgets t) ->
  existsb (String.eqb (fst kb))
    (filter (fun bid => startswith bid ("budget_" ++ value c ++ "_"))
       (Dict.keys (budgets t)))
  = category_eqb (Budget.category (snd kb)) c.
Proof.
  intros [_ Hk] Hin. rewrite Forall_forall in Hk.
  pose proof (Hk _ Hin) as Hid.
  rewrite <- startswith_category, <- Hid.
  destruct (startswith (fst kb) _) eqn:E.
  - apply existsb_exists. exists (fst kb). split; [|apply String.eqb_refl].
    apply filter_In. split; [now apply in_map|exact E].
  - apply not_true_is_false. intros Hex. apply existsb_exists in Hex.
    destruct Hex as (k & Hkin & Heq). apply String.eqb_eq in Heq. subst k.
    apply filter_In in Hkin. destruct Hkin. congruence.
Qed.

Lemma delete_all_is_filter t c :
  budgets_well_keyed t ->
  fold_left (fun d budget_id => Dict.del budget_id d)
    (filter (fun bid => startswith bid ("budget_" ++ value c ++ "_"))
       (Dict.keys (budgets t)))
    (budgets t)
  = filter (fun kb => negb (category_eqb (Budget.category (snd kb)) c))
      (budgets t).
Proof.
  intros Hwk. rewrite fold_del_filter by apply Hwk.
  apply filter_ext_in. intros kb Hin.
  now rewrite (prefix_ids_are_category t c kb Hwk Hin).
Qed.

Lemma filter_well_keyed (p : string * Budget.t -> bool) t :
  budgets_well_keyed t ->
  budgets_well_keyed (with_budgets t (filter p (budgets t))).
Proof.
  intros [Hnd Hk]. split; simpl.
  - now apply NoDup_keys_filter.
  - now apply Forall_filter.
Qed.

Lemma get_absent_category t c p :
  budgets_well_keyed t ->
  (forall b, In b (Dict.values (budgets t)) -> Budget.category b <> c) ->
  Dict.get (Budget.make_id c p) (budgets t) = None.
Proof.
  intros [_ Hk] Hnone. apply not_In_get_None. unfold Dict.keys.
  rewrite in_map_iff. intros ([k b] & Hkb & Hin). simpl in Hkb. subst k.
  rewrite Forall_forall in Hk. pose proof (Hk _ Hin) as Hid. simpl in Hid.
  unfold Budget.id in Hid. apply make_id_inj in Hid. destruct Hid as [Hc _].
  apply (Hnone b); [|congruence].
  unfold Dict.values. change b with (snd (Budget.make_id c p, b)).
  now apply in_map.
Qed.

Lemma Forall2_In_right {A B} (R : A -> B -> Prop) l l' y :
  Forall2 R l l' -> In y l' -> exists x, In x l /\ R x y.
Proof.
  induction 1 as [|x y' l l' Hxy _ IH]; simpl; [tauto|].
  intros [<-|Hin].
  - exists x. split; [now left|exact Hxy].
  - destruct (IH Hin) as (x' & Hx' & HR). exists x'. split; [now right|exact HR].
Qed.

Lemma budgets_with_status_loop t now l acc :
  budgets_well_keyed t ->
  (forall b, In b l -> In b (Dict.values (budgets t))) ->
  exists res,
    fold_left
      (fun budgets_with_status budget =>
         match get_budget_status t (Budget.category budget)
                 (Budget.period budget) now with
         | Some budget_status =>
             budgets_with_status
             ++ [mk_budget_with_status (value (Budget.category budget))
                   (Budget.period budget) budget_status]
         | None => budgets_with_status
         end) l acc
    = acc ++ res
    /\ Forall2 (reports_budget t now) l res.
Proof.
  intros Hwk. revert acc. induction l as [|b l IH]; intros acc Hl; simpl.
  - exists []. split; [now rewrite app_nil_r|constructor].
  - destruct (status_of_stored_budget t b now Hwk (Hl b (or_introl eq_refl)))
      as (st & Hst & Ha & _ & Hs).
    rewrite Hst.
    destruct (IH (acc ++ [mk_budget_with_status (value (Budget.category b))
                            (Budget.period b) st]))
      as (res & Hres & HF); [intros b' Hb'; apply Hl; now right|].
    exists (mk_budget_with_status (value (Budget.category b))
              (Budget.period b) st :: res).
    split; [now rewrite Hres, <- app_assoc|].
    constructor; [|exact HF]. repeat split; assumption.
Qed.

Lemma budgets_with_status_entries t now :
  budgets_well_keyed t ->
  Forall2 (reports_budget t now) (Dict.values (budgets t))
    (get_all_budgets_with_status t now).
Proof.
  intros Hwk.
  destruct (budgets_with_status_loop t now (Dict.values (budgets t)) [] Hwk)
    as (res & Hres & HF); [auto|].
  unfold get_all_budgets_with_status. now rewrite Hres.
Qed.

(** ** Deleting budgets *)

(** [delete_budget] with a period: when the pair has no budget it fails
    and leaves the tracker as it was; otherwise it removes the entry of
    that pair and nothing else, the other budgets keeping their order. *)
Theorem delete_budget_one_pair :
  forall (t : ExpenseTracker) (c : ExpenseCategory) (p : string)
         (now : datetime),
    p <> EmptyString ->
    budgets_well_keyed t ->
    let budget_id := Budget.make_id c p in
    let r := delete_budget t c (Some p) now in
    (Dict.get budget_id (budgets t) = None ->
     r = ((false, NoBudgetFoundFor c p), t))
    /\ (Dict.get budget_id (budgets t) <> None ->
        fst r = (true, BudgetDeleted c p)
        /\ expenses (snd r) = expenses t
        /\ budgets (snd r)
           = filter (fun kb => negb (String.eqb (fst kb) budget_id))
               (budgets t)
        /\ Dict.get budget_id (budgets (snd r)) = None
        /\ (forall k, k <> budget_id ->
                      Dict.get k (budgets (snd r)) = Dict.get k (budgets t))).
Proof.
  intros t c p now Hp [Hnd Hk] budget_id r. subst r.
  unfold delete_budget.
  assert (Ht : truthy (Some p) = true).
  { simpl. destruct (String.eqb_spec p ""); [contradiction|reflexivity]. }
  rewrite Ht. cbn [str]. fold budget_id. split.
  - intros Hnone.
    assert (Hm : Dict.mem budget_id (budgets t) = false).
    { unfold Dict.mem. now rewrite Hnone. }
    now rewrite Hm.
  - intros Hsome. apply mem_get in Hsome. rewrite Hsome. simpl.
    rewrite del_filter by exact Hnd.
    split; [reflexivity|]. split; [reflexivity|]. split; [reflexivity|].
    split.
    + apply get_filter_drop. intros v. simpl.
      now rewrite String.eqb_refl.
    + intros k Hne. apply get_filter_keep. intros v. simpl.
      destruct (String.eqb_spec k budget_id); [contradiction|reflexivity].
Qed.

Lemma delete_budget_one_pair_witness :
  let t :=
    mk_tracker "ann" []
      [("budget_Food_weekly"%string, Budget.mk FOOD 30 "weekly");
       ("budget_Food_monthly"%string, Budget.mk FOOD 100 "monthly")]
      NoFile in
  let now := mk_datetime 2024 1 20 9 0 0 in
  delete_budget t FOOD (Some "daily"%string) now
  = ((false, NoBudgetFoundFor FOOD "daily"), t)
  /\ budgets (snd (delete_budget t FOOD (Some "weekly"%string) now))
     = [("budget_Food_monthly"%string, Budget.mk FOOD 100 "monthly")].
Proof.
  intros t now.
  assert (Hwk : budgets_well_keyed t).
  { split; [repeat constructor; simpl; intuition discriminate
           |repeat constructor]. }
  split.
  - apply (proj1 (delete_budget_one_pair t FOOD "daily"%string now
                    ltac:(discriminate) Hwk)).
    reflexivity.
  - destruct (proj2 (delete_budget_one_pair t FOOD "weekly"%string now
                       ltac:(discriminate) Hwk))
      as (_ & _ & H & _); [discriminate|].
    rewrite H. reflexivity.
Defined.

(** [delete_budget] without a period ([None] or the empty string): when
    the category has no budget it fails and leaves the tracker as it was;
    otherwise it removes every budget of the category, whatever its
    period, and keeps the budgets of the other categories in their order.
    Afterwards the category has no budget status for any period and no
    entry in [get_all_budgets_with_status]. *)
Theorem delete_budget_all_periods :
  forall (t : ExpenseTracker) (c : ExpenseCategory) (period : option string)
         (now : datetime),
    truthy period = false ->
    budgets_well_keyed t ->
    let r := delete_budget t c period now in
    ((forall b, In b (Dict.values (budgets t)) -> Budget.category b <> c) ->
     r = ((false, NoBudgetFound c), t))
    /\ ((exists b, In b (Dict.values (budgets t)) /\ Budget.category b = c) ->
        fst r = (true, AllBudgetsDeleted c)
        /\ expenses (snd r) = expenses t
        /\ budgets (snd r)
           = filter
               (fun kb => negb (category_eqb (Budget.category (snd kb)) c))
               (budgets t)
        /\ (forall p now', get_budget_status (snd r) c p now' = None)
        /\ (forall now' e,
               In e (get_all_budgets_with_status (snd r) now') ->
               bws_category e <> value c)).
Proof.
  intros t c period now Hp Hwk r. subst r. unfold delete_budget.
  rewrite Hp.
  pose proof (delete_all_is_filter t c Hwk) as Hfold.
  remember (filter (fun bid => startswith bid ("budget_" ++ value c ++ "_"))
              (Dict.keys (budgets t))) as ids eqn:Eids.
  assert (Hids : forall kb, In kb (budgets t) ->
                   existsb (String.eqb (fst kb)) ids
                   = category_eqb (Budget.category (snd kb)) c)
    by (intros kb Hin; subst ids; now apply prefix_ids_are_category).
  destruct ids as [|k ids'].
  - split; [reflexivity|]. intros (b & Hb & Hc). exfalso.
    unfold Dict.values in Hb. apply in_map_iff in Hb.
    destruct Hb as (kb & Hkb & Hin). pose proof (Hids kb Hin) as H.
    rewrite Hkb, Hc in H. simpl in H.
    destruct (category_eqb_spec c c); congruence.
  - split.
    + intros Hnone. exfalso.
      assert (Hin : In k (filter
                            (fun bid =>
                               startswith bid ("budget_" ++ value c ++ "_"))
                            (Dict.keys (budgets t))))
        by (rewrite <- Eids; now left).
      apply filter_In in Hin. destruct Hin as [Hin _].
      unfold Dict.keys in Hin. apply in_map_iff in Hin.
      destruct Hin as (kb & Hk & Hin). pose proof (Hids kb Hin) as H.
      rewrite Hk in H. simpl in H. rewrite String.eqb_refl in H. simpl in H.
      destruct (category_eqb_spec (Budget.category (snd kb)) c) as [Hc|];
        [|discriminate].
      apply (Hnone (snd kb)); [|exact Hc]. now apply in_map.
    + intros _. cbn [fst snd].
      set (t' := save_data _ now).
      assert (Hb' : budgets t'
                    = filter (fun kb => negb (category_eqb
                                                (Budget.category (snd kb)) c))
                        (budgets t))
        by (subst t'; simpl; exact Hfold).
      assert (Hwk' : budgets_well_keyed t').
      { unfold budgets_well_keyed. rewrite Hb'.
        exact (filter_well_keyed _ t Hwk). }
      assert (Hgone : forall b', In b' (Dict.values (budgets t')) ->
                                 Budget.category b' <> c).
      { intros b' Hin. rewrite Hb' in Hin. unfold Dict.values in Hin.
        apply in_map_iff in Hin. destruct Hin as (kb & <- & Hin).
        apply filter_In in Hin. destruct Hin as [_ Hf].
        destruct (category_eqb_spec (Budget.category (snd kb)) c);
          [discriminate|assumption]. }
      split; [reflexivity|]. split; [reflexivity|]. split; [exact Hb'|].
      split.
      * intros p now'. unfold get_budget_status.
        now rewrite (get_absent_category t' c p Hwk' Hgone).
      * intros now' e He Hcat.
        pose proof (budgets_with_status_entries t' now' Hwk') as HF.
        destruct (Forall2_In_right _ _ _ _ HF He) as (b' & Hin' & Hr).
        destruct Hr as (Hr & _). rewrite Hcat in Hr. apply value_inj in Hr.
        apply (Hgone b' Hin'). congruence.
Qed.

Lemma delete_budget_all_periods_witness :
  let t :=
    mk_tracker "ann" []
      [("budget_Food_weekly"%string, Budget.mk FOOD 30 "weekly");
       ("budget_Bills_daily"%string, Budget.mk BILLS 5 "daily");
       ("budget_Food_monthly"%string, Budget.mk FOOD 100 "monthly")]
      NoFile in
  let now := mk_datetime 2024 1 20 9 0 0 in
  delete_budget t OTHER None now = ((false, NoBudgetFound OTHER), t)
  /\ budgets (snd (delete_budget t FOOD (Some ""%string) now))
     = [("budget_Bills_daily"%string, Budget.mk BILLS 5 "daily")]
  /\ get_budget_status (snd (delete_budget t FOOD None now)) FOOD "weekly" now
     = None.
Proof.
  intros t now.
  assert (Hwk : budgets_well_keyed t).
  { split; [repeat constructor; simpl; intuition discriminate
           |repeat constructor]. }
  split; [|split].
  - apply (proj1 (delete_budget_all_periods t OTHER None now eq_refl Hwk)).
    intros b [<-|[<-|[<-|[]]]]; discriminate.
  - destruct (proj2 (delete_budget_all_periods t FOOD (Some ""%string) now
                       eq_refl Hwk))
      as (_ & _ & H & _).
    + exists (Budget.mk FOOD 30 "weekly"). split; [now left|reflexivity].
    + rewrite H. reflexivity.
  - destruct (proj2 (delete_budget_all_periods t FOOD None now eq_refl Hwk))
      as (_ & _ & _ & H & _).
    + exists (Budget.mk FOOD 30 "weekly"). split; [now left|reflexivity].
    + apply H.
Defined.

(** ** Every stored budget is listed with its status *)

(** With budgets keyed by their ids, [get_all_budgets_with_status] lists
    every stored budget exactly once, in the stored order, each with its
    category, its period, its amount and the spending of the window of
    its own period. *)
Theorem all_budgets_are_listed :
  forall (t : ExpenseTracker) (now : datetime),
    budgets_well_keyed t ->
    let listed := get_all_budgets_with_status t now in
    List.length listed = List.length (budgets t)
    /\ map bws_category listed
       = map (fun b => value (Budget.category b)) (Dict.values (budgets t))
    /\ map bws_period listed = map Budget.period (Dict.values (budgets t))
    /\ Forall2 (reports_budget t now) (Dict.values (budgets t)) listed.
Proof.
  intros t now Hwk listed.
  pose proof (budgets_with_status_entries t now Hwk) as HF.
  fold listed in HF.
  split; [|split; [|split; [|exact HF]]].
  - rewrite <- (Forall2_length HF). unfold Dict.values. apply length_map.
  - induction HF as [|b e l l' (Hc & _) _ IH]; simpl; [reflexivity|].
    now rewrite Hc, IH.
  - induction HF as [|b e l l' (_ & Hp & _) _ IH]; simpl; [reflexivity|].
    now rewrite Hp, IH.
Qed.

Lemma all_budgets_are_listed_witness :
  let t :=
    mk_tracker "ann"
      [Expense.mk 50 FOOD "lunch" "2024-01-15" "2024-01-15_0a"]
      [("budget_Food_weekly"%string, Budget.mk FOOD 30 "weekly");
       ("budget_Bills_daily"%string, Budget.mk BILLS 5 "daily")]
      NoFile in
  let now := mk_datetime 2024 1 20 9 0 0 in
  map bws_category (get_all_budgets_with_status t now)
  = ["Food"; "Bills"]%string
  /\ map bws_period (get_all_budgets_with_status t now)
     = ["weekly"; "daily"]%string.
Proof.
  intros t now.
  assert (Hwk : budgets_well_keyed t).
  { split; [repeat constructor; simpl; intuition discriminate
           |repeat constructor]. }
  destruct (all_budgets_are_listed t now Hwk) as (_ & H1 & H2 & _).
  split; [exact H1|exact H2].
Defined.

(** ** The invariant of the budget set *)

Lemma delete_budget_well_keyed t c p now :
  budgets_well_keyed t -> budgets_well_keyed (snd (delete_budget t c p now)).
Proof.
  intros Hwk. unfold delete_budget. destruct (truthy p).
  - destruct (Dict.mem _ (budgets t)); [|exact Hwk].
    unfold budgets_well_keyed. simpl. rewrite del_filter by apply Hwk.
    exact (filter_well_keyed _ t Hwk).
  - destruct (filter _ (Dict.keys (budgets t))) as [|k ids]; [exact Hwk|].
    unfold budgets_well_keyed. cbn [snd save_data budgets with_budgets].
    rewrite fold_del_filter by apply Hwk.
    exact (filter_well_keyed _ t Hwk).
Qed.

Lemma well_keyed_pairs t :
  budgets_well_keyed t ->
  NoDup (map (fun b => (Budget.category b, Budget.period b))
           (Dict.values (budgets t))).
Proof.
  intros [Hnd Hk].
  apply (NoDup_map_inv (fun cp => Budget.make_id (fst cp) (snd cp))).
  rewrite map_map. unfold Dict.values. rewrite map_map.
  unfold Dict.keys in Hnd.
  erewrite map_ext_in; [exact Hnd|].
  intros kb Hin. rewrite Forall_forall in Hk. symmetry. exact (Hk kb Hin).
Qed.

(** The budget set holds at most one budget per (category, period) pair,
    each under the id of its pair, and every operation of the tracker
    keeps it so: setting and deleting budgets, clearing the data, and the
    operations on expenses, which leave the budget set untouched. *)
Theorem budget_set_stays_keyed :
  forall (t : ExpenseTracker) (now : datetime),
    budgets_well_keyed t ->
    NoDup (map (fun b => (Budget.category b, Budget.period b))
             (Dict.values (budgets t)))
    /\ (forall c a p, budgets_well_keyed (snd (set_budget t c a p now)))
    /\ (forall c p, budgets_well_keyed (snd (delete_budget t c p now)))
    /\ budgets_well_keyed (snd (clear_all_data t now))
    /\ (forall a c d dt token,
           budgets (snd (add_expense t a c d dt now token)) = budgets t)
    /\ (forall i, budgets (snd (delete_expense t i now)) = budgets t)
    /\ (forall i a c d dt,
           budgets (snd (update_expense t i a c d dt now)) = budgets t).
Proof.
  intros t now Hwk.
  split; [now apply well_keyed_pairs|].
  split; [intros; now apply set_budget_well_keyed|].
  split; [intros; now apply delete_budget_well_keyed|].
  split; [split; constructor|].
  split; [|split].
  - intros a c d dt token. unfold add_expense.
    now destruct (Qle_bool a 0).
  - intros i. unfold delete_expense. cbv zeta.
    now destruct (_ <? _)%nat.
  - intros i a c d dt. unfold update_expense.
    now destruct (update_loop _ _ _ _ _ _) as [[?|?]|].
Qed.

Lemma budget_set_stays_keyed_witness :
  let t :=
    mk_tracker "ann" []
      [("budget_Food_weekly"%string, Budget.mk FOOD 30 "weekly");
       ("budget_Food_monthly"%string, Budget.mk FOOD 100 "monthly")]
      NoFile in
  let now := mk_datetime 2024 1 20 9 0 0 in
  budgets_well_keyed (snd (set_budget t FOOD 70 "weekly" now))
  /\ budgets_well_keyed (snd (delete_budget t FOOD None now)).
Proof.
  intros t now.
  assert (Hwk : budgets_well_keyed t).
  { split; [repeat constructor; simpl; intuition discriminate
           |repeat constructor]. }
  destruct (budget_set_stays_keyed t now Hwk) as (_ & H1 & H2 & _).
  split; [apply H1|apply H2].
Defined.

(** ** What reaches the stored file *)




(** ** The two ways a date range can fail *)

Lemma filter_by_date_None start end_ es :
  (exists e, In e es /\ strptime_Ymd (Expense.date e) = None) ->
  filter_by_date start end_ es = None.
Proof.
  intros (e & Hin & He). induction es as [|x es IH]; simpl; [destruct Hin|].
  destruct Hin as [->|Hin].
  - now rewrite He.
  - destruct (strptime_Ymd (Expense.date x)); [|reflexivity].
    now rewrite (IH Hin).
Qed.

Lemma date_range_on_days t S E start end_ :
  strptime_Ymd S = Some start ->
  strptime_Ymd E = Some end_ ->
  dates_well_formed t ->
  get_expenses_by_date_range t S E
  = filter (on_days (toordinal start) (toordinal end_)) (expenses t).
Proof.
  intros HS HE Hwf. unfold get_expenses_by_date_range. rewrite HS, HE.
  rewrite filter_by_date_Some by exact Hwf.
  destruct (strptime_valid _ _ HS) as [Hvs Hms].
  destruct (strptime_valid _ _ HE) as [Hve Hme].
  apply filter_ext. intros e. rewrite <- Hms, <- Hme at 1.
  rewrite dated_within_on_days by assumption.
  reflexivity.
Qed.

Lemma date_range_bad_date t S E :
  (exists e, In e (expenses t) /\ strptime_Ymd (Expense.date e) = None) ->
  get_expenses_by_date_range t S E = [].
Proof.
  intros Hbad. unfold get_expenses_by_date_range.
  destruct (strptime_Ymd S); [|reflexivity].
  destruct (strptime_Ymd E); [|reflexivity].
  now rewrite filter_by_date_None.
Qed.

(** [get_expenses_by_date_range] fails closed: it returns no expense at
    all when a bound does not parse or when the date of any expense of
    the ledger does not parse; otherwise it returns, in the order of the
    ledger, exactly the expenses dated from the start to the end, both
    included. *)
Theorem date_range_fails_closed :
  forall (t : ExpenseTracker) (start_date end_date : string),
    (strptime_Ymd start_date = None -> 
     get_expenses_by_date_range t start_date end_date = [])
    /\ (strptime_Ymd end_date = None ->
        get_expenses_by_date_range t start_date end_date = [])
    /\ ((exists e, In e (expenses t) /\ strptime_Ymd (Expense.date e) = None) ->
        get_expenses_by_date_range t start_date end_date = [])
    /\ (forall start end_,
           strptime_Ymd start_date = Some start ->
           strptime_Ymd end_date = Some end_ ->
           dates_well_formed t ->
           get_expenses_by_date_range t start_date end_date
           = filter (on_days (toordinal start) (toordinal end_))
               (expenses t)).
Proof.
  intros t S E. unfold get_expenses_by_date_range.
  split; [|split; [|split]].
  - now intros ->.
  - intros ->. now destruct (strptime_Ymd S).
  - intros Hbad. fold (get_expenses_by_date_range t S E).
    now apply date_range_bad_date.
  - intros start end_ HS HE Hwf. fold (get_expenses_by_date_range t S E).
    now apply date_range_on_days.
Qed.

Lemma date_range_fails_closed_witness :
  let e1 := Expense.mk 50 FOOD "lunch" "2024-01-15" "2024-01-15_0a" in
  let e2 := Expense.mk 30 BILLS "power" "2024-02-16" "2024-02-16_0b" in
  let bad := Expense.mk 20 FOOD "snack" "15/01/2024" "15/01/2024_0c" in
  let t := mk_tracker "ann" [e1; e2] Dict.empty NoFile in
  let t_bad := mk_tracker "ann" [e1; e2; bad] Dict.empty NoFile in
  get_expenses_by_date_range t "2024-01-01" "2024-01-31" = [e1]
  /\ get_expenses_by_date_range t "2024-01-01" "2024-01-32" = []
  /\ get_expenses_by_date_range t_bad "2024-01-01" "2024-01-31" = [].
Proof.
  intros e1 e2 bad t t_bad. split; [|split].
  - destruct (date_range_fails_closed t "2024-01-01" "2024-01-31")
      as (_ & _ & _ & H).
    rewrite (H (mk_datetime 2024 1 1 0 0 0) (mk_datetime 2024 1 31 0 0 0));
      [reflexivity|reflexivity|reflexivity|].
    repeat constructor; discriminate.
  - apply (proj1 (proj2 (date_range_fails_closed t "2024-01-01"
                           "2024-01-32"))).
    reflexivity.
  - apply (proj1 (proj2 (proj2 (date_range_fails_closed t_bad "2024-01-01"
                                  "2024-01-31")))).
    exists bad. split; [simpl; auto|reflexivity].
Defined.

(** [get_total_spent] fails open: when a bound is missing or empty, when
    a bound does not parse, or when the date of one of the expenses
    selected by the category does not parse, the date range is ignored
    and the total is the one of the category over all dates. *)
Theorem total_spent_fails_open :
  forall (t : ExpenseTracker) (category : option ExpenseCategory)
         (start_date end_date : option string),
    let selected :=
      match category with
      | Some c => get_expenses_by_category t c
      | None => expenses t
      end in
    truthy start_date = false \/ truthy end_date = false
    \/ strptime_Ymd (str start_date) = None
    \/ strptime_Ymd (str end_date) = None
    \/ (exists e, In e selected /\ strptime_Ymd (Expense.date e) = None) ->
    get_total_spent t category start_date end_date
    = py_sum (map Expense.amount selected).
Proof.
  intros t category S E selected H. unfold get_total_spent.
  assert (Hsel : match category with
                 | Some c =>
                     filter (fun exp => category_eqb (Expense.category exp) c)
                       (expenses t)
                 | None => expenses t
                 end = selected) by (subst selected; now destruct category).
  rewrite Hsel.
  destruct H as [H|[H|[H|[H|H]]]].
  - now rewrite H.
  - rewrite H. now rewrite andb_false_r.
  - rewrite H. now destruct (truthy S && truthy E).
  - rewrite H. destruct (truthy S && truthy E); [|reflexivity].
    now destruct (strptime_Ymd (str S)).
  - destruct (truthy S && truthy E); [|reflexivity].
    destruct (strptime_Ymd (str S)); [|reflexivity].
    destruct (strptime_Ymd (str E)); [|reflexivity].
    now rewrite filter_by_date_None.
Qed.

Lemma total_spent_fails_open_witness :
  let e1 := Expense.mk 50 FOOD "lunch" "2024-01-15" "2024-01-15_0a" in
  let e2 := Expense.mk 30 BILLS "power" "2024-02-16" "2024-02-16_0b" in
  let bad := Expense.mk 20 FOOD "snack" "15/01/2024" "15/01/2024_0c" in
  let t := mk_tracker "ann" [e1; e2; bad] Dict.empty NoFile in
  (get_total_spent t None (Some "2024-01-01"%string)
     (Some "2024-01-31"%string) == 100)
  /\ (get_total_spent t (Some BILLS) (Some "2024-01-01"%string)
        (Some "2024-01-31"%string) == 0).
Proof.
  intros e1 e2 bad t. split.
  - rewrite (total_spent_fails_open t None (Some "2024-01-01"%string)
               (Some "2024-01-31"%string)).
    + reflexivity.
    + right. right. right. right. exists bad.
      split; [simpl; auto|reflexivity].
  - reflexivity.
Defined.

(** ** Setting a budget, then asking for its status *)

Lemma period_defaults_to_monthly t c p now :
  p <> "daily"%string -> p <> "weekly"%string ->
  get_total_spent_by_period t c p now
  = get_total_spent_by_period t c "monthly" now.
Proof.
  intros Hd Hw. unfold get_total_spent_by_period.
  destruct (String.eqb_spec p "daily"); [contradiction|].
  destruct (String.eqb_spec p "weekly"); [contradiction|].
  reflexivity.
Qed.

(** After [set_budget] has accepted an amount, the status of the pair
    reports that amount and that period, with the spending of the ledger
    over the window of the period, which for a period other than "daily"
    and "weekly" is the window of the current month; the status of every
    other pair is what it was. *)
Theorem set_budget_then_status :
  forall (t : ExpenseTracker) (c : ExpenseCategory) (a : Q) (p : string)
         (now now' : datetime),
    0 <= a ->
    let t' := snd (set_budget t c a p now) in
    (exists st,
        get_budget_status t' c p now' = Some st
        /\ budget_amount st = a
        /\ status_period st = p
        /\ spent st = get_total_spent_by_period t c p now'
        /\ (p <> "daily"%string -> p <> "weekly"%string ->
            spent st = get_total_spent_by_period t c "monthly" now'))
    /\ (forall c' p',
           (c', p') <> (c, p) ->
           get_budget_status t' c' p' now' = get_budget_status t c' p' now').
Proof.
  intros t c a p now now' Ha t'. subst t'. unfold set_budget.
  apply Qltb_false in Ha. rewrite Ha. cbn [snd]. split.
  - unfold get_budget_status. cbn [budgets save_data with_budgets].
    change (Budget.id (Budget.mk c a p)) with (Budget.make_id c p).
    rewrite get_set_same. eexists. split; [reflexivity|].
    cbn [budget_amount status_period spent Budget.amount].
    split; [reflexivity|]. split; [reflexivity|]. split; [reflexivity|].
    intros Hd Hw.
    exact (period_defaults_to_monthly t c p now' Hd Hw).
  - intros c' p' Hne. unfold get_budget_status.
    cbn [budgets save_data with_budgets].
    change (Budget.id (Budget.mk c a p)) with (Budget.make_id c p).
    rewrite get_set_other; [reflexivity|].
    intros Heq. apply make_id_inj in Heq. destruct Heq. apply Hne. congruence.
Qed.

Lemma set_budget_then_status_witness :
  let t :=
    mk_tracker "ann"
      [Expense.mk 50 FOOD "lunch" "2024-01-15" "2024-01-15_0a"]
      [("budget_Food_weekly"%string, Budget.mk FOOD 30 "weekly")]
      NoFile in
  let now := mk_datetime 2024 1 20 9 0 0 in
  let t' := snd (set_budget t FOOD 100 "yearly" now) in
  (exists st,
      get_budget_status t' FOOD "yearly" now = Some st
      /\ budget_amount st = 100
      /\ spent st = get_total_spent_by_period t FOOD "monthly" now)
  /\ get_budget_status t' FOOD "weekly" now
     = get_budget_status t FOOD "weekly" now.
Proof.
  intros t now t'.
  destruct (set_budget_then_status t FOOD 100 "yearly"%string now now)
    as ((st & H1 & H2 & _ & _ & H5) & Hother); [discriminate|].
  split.
  - exists st. split; [exact H1|]. split; [exact H2|].
    apply H5; discriminate.
  - apply Hother. discriminate.
Defined.

(** ** Registering and logging in *)

Lemma split_without_sep sep s :
  contains sep s = false -> split sep s = [s].
Proof.
  induction s as [|c s IH]; simpl; [reflexivity|].
  destruct (Ascii.eqb c sep); simpl; [discriminate|].
  intros H. now rewrite (IH H).
Qed.






(** [register_user] and [login_user] write the users file when they
    succeed and change nothing when they fail; the checks of
    [register_user] come in the order: name taken, name shorter than 3
    characters, password shorter than 4 characters; and a user whose
    stored hash holds no dollar sign is refused whatever the password. *)
Theorem authentication_failures :
  forall (sha256_hexdigest : string -> string) (m : UserManager)
         (username password salt : string) (now : datetime),
    let registered :=
      register_user sha256_hexdigest m username password salt now in
    let logged_in := login_user sha256_hexdigest m username password now in
    (if fst (fst registered) then users_in_sync (snd registered)
     else snd registered = m)
    /\ (if fst (fst logged_in) then users_in_sync (snd logged_in)
        else snd logged_in = m)
    /\ (user_exists m username = true ->
        registered = ((false, UsernameExists), m))
    /\ (user_exists m username = false -> (len username < 3)%nat ->
        registered = ((false, UsernameTooShort), m))
    /\ (user_exists m username = false -> (3 <= len username)%nat ->
        (len password < 4)%nat ->
        registered = ((false, PasswordTooShort), m))
    /\ (user_exists m username = false ->
        logged_in = ((false, UserNotFound), m))
    /\ (forall u,
           Dict.get username (users m) = Some u ->
           contains "$" (User.password_hash u) = false ->
           logged_in = ((false, InvalidPassword), m)).
Proof.
  intros sha m username password salt now registered logged_in.
  subst registered logged_in. unfold register_user, login_user, user_exists.
  split; [|split; [|split; [|split; [|split; [|split]]]]].
  - destruct (Dict.mem _ _); [reflexivity|].
    destruct (_ <? _)%nat; [reflexivity|].
    destruct (_ <? _)%nat; reflexivity.
  - destruct (Dict.get _ _) as [u|]; [|reflexivity].
    destruct (verify_password _ _ _); reflexivity.
  - now intros ->.
  - intros -> H. apply Nat.ltb_lt in H. now rewrite H.
  - intros -> H1 H2. apply Nat.ltb_ge in H1. apply Nat.ltb_lt in H2.
    now rewrite H1, H2.
  - unfold Dict.mem. now destruct (Dict.get _ _).
  - intros u Hu Hno. rewrite Hu. unfold verify_password.
    now rewrite split_without_sep.
Qed.

Lemma authentication_failures_witness :
  let sha256_hexdigest := fun _ : string => "9f86d081"%string in
  let m :=
    mk_manager
      [("ann"%string, User.mk "0a1b$9f86d081" "2024-01-15 09:00:00" None);
       ("bob"%string, User.mk "9f86d081" "2024-01-15 09:30:00" None)]
      NoUsersFile in
  let now := mk_datetime 2024 1 16 8 30 0 in
  register_user sha256_hexdigest m "ann" "secret" "0c" now
  = ((false, UsernameExists), m)
  /\ register_user sha256_hexdigest m "al" "secret" "0c" now
     = ((false, UsernameTooShort), m)
  /\ login_user sha256_hexdigest m "bob" "secret" now
     = ((false, InvalidPassword), m).
Proof.
  intros sha m now. split; [|split].
  - apply (authentication_failures sha m "ann"%string "secret"%string
             "0c"%string now).
    reflexivity.
  - apply (authentication_failures sha m "al"%string "secret"%string
             "0c"%string now).
    + reflexivity.
    + simpl. lia.
  - apply (authentication_failures sha m "bob"%string "secret"%string
             "0c"%string now)
      with (u := User.mk "9f86d081" "2024-01-15 09:30:00" None).
    + reflexivity.
    + reflexivity.
Defined.

(** ** Budget alerts *)

Lemma alerts_loop t now l acc :
  budgets_well_keyed t ->
  (forall b, In b l -> In b (Dict.values (budgets t))) ->
  fold_left
    (fun alerts budget =>
       match get_budget_status t (Budget.category budget)
               (Budget.period budget) now with
       | Some budget_status =>
           if is_over_budget budget_status
           then alerts
                ++ [OverBudget (Budget.period budget)
                      (value (Budget.category budget))
                      (spent budget_status) (budget_amount budget_status)]
           else alerts
       | None => alerts
       end) l acc
  = acc ++ map (alert_for t now) (filter (over_budget t now) l).
Proof.
  intros Hwk. revert acc. induction l as [|b l IH]; intros acc Hl; simpl.
  - now rewrite app_nil_r.
  - rewrite IH by (intros b' Hb'; apply Hl; now right).
    unfold get_budget_status at 1.
    change (Budget.make_id (Budget.category b) (Budget.period b))
      with (Budget.id b).
    rewrite (In_values_keyed t b Hwk (Hl b (or_introl eq_refl))).
    cbn [is_over_budget spent budget_amount]. fold (over_budget t now b).
    destruct (over_budget t now b); [|reflexivity].
    simpl. now rewrite <- app_assoc.
Qed.

(** With budgets keyed by their ids, the budget alerts of the insights
    are, in the stored order of the budget set, exactly one alert for
    each budget whose amount is less than the spending of its category
    over the window of its own period (the current day, week or month),
    with that period, category, spending and amount; a ledger without
    budgets raises none. *)
Theorem alerts_are_the_overrun_budgets :
  forall (t : ExpenseTracker) (now : datetime),
    budgets_well_keyed t ->
    let alerts := budget_alerts (get_financial_insights t now) in
    alerts
    = map (alert_for t now)
        (filter (over_budget t now) (Dict.values (budgets t)))
    /\ (forall b,
           In (alert_for t now b) alerts <->
           exists b',
             In b' (Dict.values (budgets t))
             /\ over_budget t now b' = true
             /\ alert_for t now b' = alert_for t now b)
    /\ (budgets t = Dict.empty -> alerts = []).
Proof.
  intros t now Hwk alerts.
  assert (Halerts : alerts
                    = map (alert_for t now)
                        (filter (over_budget t now)
                           (Dict.values (budgets t)))).
  { subst alerts. unfold get_financial_insights.
    destruct (fold_left top_step _ _) as [top_category top_amount].
    cbn [budget_alerts]. now rewrite alerts_loop by auto. }
  split; [exact Halerts|]. split.
  - intros b. rewrite Halerts, in_map_iff. split.
    + intros (b' & Heq & Hin). apply filter_In in Hin.
      exists b'. tauto.
    + intros (b' & Hin & Hover & Heq). exists b'.
      split; [exact Heq|]. now apply filter_In.
  - intros Hempty. rewrite Halerts, Hempty. reflexivity.
Qed.

Lemma alerts_are_the_overrun_budgets_witness :
  let t :=
    mk_tracker "ann"
      [Expense.mk 50 FOOD "lunch" "2024-01-15" "2024-01-15_0a";
       Expense.mk 20 FOOD "snack" "2024-01-20" "2024-01-20_0b"]
      [("budget_Food_daily"%string, Budget.mk FOOD 10 "daily");
       ("budget_Food_weekly"%string, Budget.mk FOOD 100 "weekly");
       ("budget_Food_monthly"%string, Budget.mk FOOD 60 "monthly")]
      NoFile in
  let now := mk_datetime 2024 1 20 9 0 0 in
  budget_alerts (get_financial_insights t now)
  = [OverBudget "daily" "Food" 20 10; OverBudget "monthly" "Food" 70 60].
Proof.
  intros t now.
  assert (Hwk : budgets_well_keyed t).
  { split; [repeat constructor; simpl; intuition discriminate
           |repeat constructor]. }
  rewrite (proj1 (alerts_are_the_overrun_budgets t now Hwk)).
  reflexivity.
Defined.

(** ** Statistics of a ledger *)

(** [max] with a key returns an element of the list whose key is the
    greatest, for an order [le] that the strict test [ltb] decides *)
Section MaxFrom.
Context {A K : Type} (ltb : K -> K -> bool) (le : K -> K -> Prop)
  (key : A -> K).
Hypothesis le_refl : forall a, le a a.
Hypothesis le_trans : forall a b c, le a b -> le b c -> le a c.
Hypothesis ltb_le : forall a b, ltb a b = true -> le a b.
Hypothesis nltb_le : forall a b, ltb a b = false -> le b a.

Lemma max_from_spec best l :
  In (max_from ltb key best l) (best :: l)
  /\ forall x, In x (best :: l) -> le (key x) (key (max_from ltb key best l)).
Proof.
  revert best. induction l as [|y l IH]; intros best; simpl.
  - split; [now left|]. intros x [Hx|[]]. rewrite <- Hx. apply le_refl.
  - destruct (IH (if ltb (key best) (key y) then y else best)) as [Hin Hle].
    split.
    + destruct Hin as [Hin|Hin]; [|now right; right].
      rewrite <- Hin. destruct (ltb (key best) (key y)); auto.
    + intros x [Hx|[Hx|Hx]].
      * rewrite <- Hx. eapply le_trans; [|apply Hle; now left].
        destruct (ltb (key best) (key y)) eqn:E;
          [now apply ltb_le|apply le_refl].
      * rewrite <- Hx. eapply le_trans; [|apply Hle; now left].
        destruct (ltb (key best) (key y)) eqn:E;
          [apply le_refl|now apply nltb_le].
      * apply Hle. now right.
Qed.

Lemma py_max_spec l r :
  py_max ltb key l = Some r ->
  In r l /\ forall x, In x l -> le (key x) (key r).
Proof.
  destruct l as [|x l]; simpl; [discriminate|].
  intros [= <-]. apply max_from_spec.
Qed.
End MaxFrom.

Lemma ascii_compare_trans a b c o :
  Ascii.compare a b = o -> Ascii.compare b c = o -> Ascii.compare a c = o.
Proof.
  unfold Ascii.compare. destruct o; intros H1 H2.
  - apply N.compare_eq_iff in H1, H2. apply N.compare_eq_iff. congruence.
  - apply N.compare_lt_iff in H1, H2. apply N.compare_lt_iff.
    now apply N.lt_trans with (N_of_ascii b).
  - apply N.compare_gt_iff in H1, H2. apply N.compare_gt_iff.
    now apply N.lt_trans with (N_of_ascii b).
Qed.

Lemma string_leb_refl s : String.leb s s = true.
Proof.
  unfold String.leb. induction s as [|a s IH]; simpl; [reflexivity|].
  unfold Ascii.compare. now rewrite N.compare_refl.
Qed.

Lemma string_leb_trans a b c :
  String.leb a b = true -> String.leb b c = true -> String.leb a c = true.
Proof.
  unfold String.leb. revert b c.
  induction a as [|x a IH]; intros [|y b] [|z c]; simpl; try easy.
  destruct (Ascii.compare x y) eqn:Exy; try easy;
    destruct (Ascii.compare y z) eqn:Eyz; try easy.
  - rewrite (ascii_compare_trans _ _ _ _ Exy Eyz). apply IH.
  - apply Ascii.compare_eq_iff in Exy. subst y. now rewrite Eyz.
  - apply Ascii.compare_eq_iff in Eyz. subst z. now rewrite Exy.
  - now rewrite (ascii_compare_trans _ _ _ _ Exy Eyz).
Qed.

Lemma string_ltb_leb a b : String.ltb a b = true -> String.leb a b = true.
Proof. unfold String.ltb, String.leb. now destruct (String.compare a b). Qed.

Lemma string_nltb_leb a b : String.ltb a b = false -> String.leb b a = true.
Proof.
  unfold String.ltb, String.leb. rewrite (String.compare_antisym a b).
  now destruct (String.compare b a).
Qed.

Lemma keys_set {V} k (v : V) d :
  Dict.keys (Dict.set k v d)
  = if Dict.mem k d then Dict.keys d else Dict.keys d ++ [k].
Proof.
  unfold Dict.mem. destruct (Dict.get k d) eqn:E.
  - apply keys_set_present. congruence.
  - rewrite set_absent by exact E. unfold Dict.keys.
    now rewrite map_app.
Qed.

Lemma count_of_app c es e :
  count_of c (es ++ [e])
  = (count_of c es
     + if category_eqb (Expense.category e) c then 1 else 0)%nat.
Proof.
  unfold count_of. rewrite filter_app, length_app. simpl.
  now destruct (category_eqb (Expense.category e) c).
Qed.

Lemma counted_step d es e :
  counted d es ->
  counted (bump_count (value (Expense.category e)) d) (es ++ [e]).
Proof.
  intros (Hnd & Hget & Hkeys). unfold bump_count.
  set (k := value (Expense.category e)).
  split; [|split].
  - rewrite keys_set. unfold Dict.mem.
    destruct (Dict.get k d) eqn:E; [exact Hnd|].
    apply NoDup_app; [exact Hnd|repeat constructor; intros []|].
    intros x Hx [<-|[]]. now apply (get_None_not_In _ _ E).
  - intros c. rewrite count_of_app.
    destruct (category_eqb_spec (Expense.category e) c) as [Hc|Hc].
    + subst k. rewrite Hc. rewrite get_set_same, (Hget c).
      destruct (count_of c es) as [|n] eqn:En; simpl; [reflexivity|].
      replace (n + 1)%nat with (S n) by lia. simpl. f_equal. lia.
    + rewrite get_set_other
        by (intros Hv; apply Hc; symmetry; now apply value_inj).
      rewrite Nat.add_0_r. apply Hget.
  - intros k'. rewrite keys_set.
    destruct (Dict.mem k d); [apply Hkeys|].
    intros Hin. apply in_app_or in Hin. destruct Hin as [Hin|[<-|[]]].
    + now apply Hkeys.
    + now exists (Expense.category e).
Qed.

Lemma counted_loop es d es0 :
  counted d es0 ->
  counted
    (fold_left
       (fun d expense => bump_count (value (Expense.category expense)) d)
       es d)
    (es0 ++ es).
Proof.
  revert d es0. induction es as [|e es IH]; intros d es0 H; simpl.
  - now rewrite app_nil_r.
  - replace (es0 ++ e :: es) with ((es0 ++ [e]) ++ es)
      by (now rewrite <- app_assoc).
    apply IH. now apply counted_step.
Qed.

Lemma category_counts_counted es : counted (category_counts es) es.
Proof.
  apply (counted_loop es Dict.empty []).
  split; [constructor|split; [reflexivity|intros k []]].
Qed.

(** The statistics of a ledger: the number of expenses and of budgets;
    for an empty ledger the placeholders; otherwise the most used
    category is one with the greatest number of expenses, and the first
    and last dates are dates of the ledger that come first and last in
    the order of strings. *)
Theorem statistics_of_the_ledger :
  forall t : ExpenseTracker,
    let s := get_user_statistics t in
    let dates := map Expense.date (expenses t) in
    total_expenses s = List.length (expenses t)
    /\ active_budgets s = List.length (budgets t)
    /\ (expenses t = [] ->
        most_used_category s = "None"%string
        /\ most_spent_category s = "None"%string
        /\ first_expense_date s = "No expenses"%string
        /\ last_expense_date s = "No expenses"%string)
    /\ (expenses t <> [] ->
        (exists c,
            most_used_category s = value c
            /\ (0 < count_of c (expenses t))%nat
            /\ forall c',
                 (count_of c' (expenses t) <= count_of c (expenses t))%nat)
        /\ In (first_expense_date s) dates
        /\ In (last_expense_date s) dates
        /\ forall d, In d dates ->
                     String.leb (first_expense_date s) d = true
                     /\ String.leb d (last_expense_date s) = true).
Proof.
  intros t s dates. subst s. unfold get_user_statistics.
  cbn [total_expenses active_budgets most_used_category most_spent_category
       first_expense_date last_expense_date].
  split; [reflexivity|]. split; [reflexivity|]. split.
  - intros ->. repeat split.
  - intros Hne. fold dates.
    destruct (category_counts_counted (expenses t)) as (Hnd & Hget & Hkeys).
    split.
    + destruct (py_max Z.ltb snd (Dict.items (category_counts (expenses t))))
        as [[k n]|] eqn:Emax.
      * destruct (py_max_spec Z.ltb Z.le snd Z.le_refl Z.le_trans
                    (fun a b H => Z.lt_le_incl _ _ (proj1 (Z.ltb_lt a b) H))
                    (fun a b H => proj1 (Z.ltb_ge a b) H) _ _ Emax)
          as [Hin Hmax].
        unfold Dict.items in Hin, Hmax.
        destruct (Hkeys k) as (c & ->).
        { unfold Dict.keys. apply in_map_iff. now exists (k, n). }
        exists c. split; [reflexivity|].
        pose proof (In_get_Some _ _ _ Hnd Hin) as Hc. rewrite Hget in Hc.
        destruct (count_of c (expenses t)) as [|m] eqn:Ec;
          [discriminate Hc|]. simpl in Hc. injection Hc as Hn.
        split; [lia|]. intros c'.
        pose proof (Hget c') as Hc'.
        destruct (count_of c' (expenses t)) as [|m'] eqn:Ec'; [lia|].
        simpl in Hc'. apply get_Some_In in Hc'.
        pose proof (Hmax _ Hc') as Hle. simpl in Hle. lia.
      * exfalso. destruct (expenses t) as [|e es] eqn:Ees; [now apply Hne|].
        pose proof (Hget (Expense.category e)) as Hc.
        unfold count_of in Hc. simpl in Hc.
        destruct (category_eqb_spec (Expense.category e) (Expense.category e))
          as [_|Hn]; [|now apply Hn].
        simpl in Hc.
        destruct (category_counts (e :: es)) as [|kv d]; [discriminate Hc|].
        discriminate Emax.
    + assert (Hd : dates <> []).
      { subst dates. destruct (expenses t); [now elim Hne|discriminate]. }
      destruct (py_min_str dates) as [lo|] eqn:Elo;
        [|destruct dates; [now elim Hd|discriminate Elo]].
      destruct (py_max_str dates) as [hi|] eqn:Ehi;
        [|destruct dates; [now elim Hd|discriminate Ehi]].
      unfold py_min_str in Elo. unfold py_max_str in Ehi.
      destruct (py_max_spec (fun a b => String.ltb b a)
                  (fun a b => String.leb b a = true) (fun s => s)
                  string_leb_refl
                  (fun a b c H1 H2 => string_leb_trans _ _ _ H2 H1)
                  (fun a b H => string_ltb_leb _ _ H)
                  (fun a b H => string_nltb_leb _ _ H) _ _ Elo)
        as [Hlo_in Hlo].
      destruct (py_max_spec String.ltb (fun a b => String.leb a b = true)
                  (fun s => s) string_leb_refl string_leb_trans
                  string_ltb_leb string_nltb_leb _ _ Ehi)
        as [Hhi_in Hhi].
      split; [exact Hlo_in|]. split; [exact Hhi_in|].
      intros d Hin. split; [now apply Hlo|now apply Hhi].
Qed.

Lemma statistics_of_the_ledger_witness :
  let t :=
    mk_tracker "ann"
      [Expense.mk 50 FOOD "lunch" "2024-01-15" "2024-01-15_0a";
       Expense.mk 7 BILLS "stamp" "2024-01-09" "2024-01-09_0b";
       Expense.mk 20 BILLS "power" "2024-02-01" "2024-02-01_0c"]
      Dict.empty NoFile in
  let s := get_user_statistics t in
  In (first_expense_date s) ["2024-01-15"; "2024-01-09"; "2024-02-01"]%string
  /\ String.leb (first_expense_date s) "2024-01-09" = true
  /\ String.leb "2024-02-01" (last_expense_date s) = true.
Proof.
  intros t s.
  destruct (proj2 (proj2 (proj2 (statistics_of_the_ledger t))))
    as (_ & Hlo & _ & Hall); [discriminate|].
  split; [exact Hlo|]. split.
  - apply (Hall "2024-01-09"%string). simpl. tauto.
  - apply (Hall "2024-02-01"%string). simpl. tauto.
Defined.

(** ** Evaluations *)

Local Open Scope Z_scope.

Example weekday_2024_01_15 :
  weekday (mk_datetime 2024 1 15 10 30 0) = 0.
Proof. reflexivity. Qed.

Example ord2ymd_738000 : ord2ymd 738000 = (2021, 7, 29).
Proof. reflexivity. Qed.

Example strptime_examples :
  strptime_Ymd "2024-02-29" = Some (mk_datetime 2024 2 29 0 0 0)
  /\ strptime_Ymd "2023-02-29" = None
  /\ strptime_Ymd "2024-1-5" = Some (mk_datetime 2024 1 5 0 0 0)
  /\ strptime_Ymd "2024-01-15x" = None
  /\ strftime_Ymd (mk_datetime 2024 1 5 1 2 3) = "2024-01-05"%string.
Proof. repeat split; reflexivity. Qed.

(** the scenario of the specification: an expense of 50 for food on
    2024-01-15 and a monthly food budget of 100, seen on 2024-01-20 *)
Example january_scenario :
  let now := mk_datetime 2024 1 20 10 30 5 in
  let t0 := mk_tracker "ann" [] Dict.empty NoFile in
  let t1 :=
    snd (add_expense t0 50 FOOD "lunch" (Some "2024-01-15"%string) now "0a1b")
  in
  let t2 := snd (set_budget t1 FOOD 100 "monthly" now) in
  get_budget_status t2 FOOD "monthly" now
  = Some (mk_status 100 50 50 (5000 # 100)%Q false "monthly").
Proof. reflexivity. Qed.
